(** * Shallow embedding of tools/ape_submodule_workflow.py

    The script is a thin orchestration layer over external processes.  Every
    effect it performs goes through a small set of primitives that we keep
    abstract in an environment record [Env]:
    - [subprocess_run cmd w]  : [subprocess.run(cmd, text=True, ...)];
    - [which tool w]          : [shutil.which(tool)] is truthy;
    - [path_resolve p w]      : [Path(p).resolve()];
    - [path_exists p w]       : [Path(p).exists()];
    - [read_gitmodules p w]   : [configparser] reading [p]; [None] when the
                                parser raises, otherwise the sections in file
                                order with [parser.get(section, 'path',
                                fallback=None)].
    The script itself is written in a state/exception monad whose state holds
    the external world, the list of observable events (processes executed with
    their results, lines printed to stdout and stderr, and the output of a
    child whose output is not captured) and the global [DEBUG] flag.  Python exceptions are values of [exn]. *)

From Stdlib Require Import String Ascii List ZArith Bool Lia.
Import ListNotations.
Open Scope string_scope.
Open Scope nat_scope.
Open Scope list_scope.

Infix "+++" := String.append (at level 60, right associativity).

(** ** Python string helpers (ASCII model of [str]) *)

(** [str.isspace] on one ASCII character: \t \n \v \f \r, \x1c-\x1f, space. *)
Definition is_space (c : ascii) : bool :=
  let n := nat_of_ascii c in
  ((9 <=? n) && (n <=? 13)) || ((28 <=? n) && (n <=? 32)).

(** The characters on which [str.splitlines] breaks (besides \r\n). *)
Definition is_line_break (c : ascii) : bool :=
  let n := nat_of_ascii c in
  ((10 <=? n) && (n <=? 13)) || ((28 <=? n) && (n <=? 30)).

Fixpoint splitlines_aux (cur : list ascii) (cs : list ascii) : list string :=
  match cs with
  | [] => match cur with [] => [] | _ => [string_of_list_ascii (rev cur)] end
  | c :: rest =>
      if is_line_break c then
        let rest' :=
          match rest with
          | c' :: rest'' =>
              if (nat_of_ascii c =? 13) && (nat_of_ascii c' =? 10)
              then rest'' else rest
          | [] => rest
          end in
        string_of_list_ascii (rev cur) :: splitlines_aux [] rest'
      else splitlines_aux (c :: cur) rest
  end.

(** [s.splitlines()] *)
Definition splitlines (s : string) : list string :=
  splitlines_aux [] (list_ascii_of_string s).

Fixpoint lstrip_chars (p : ascii -> bool) (cs : list ascii) : list ascii :=
  match cs with
  | c :: rest => if p c then lstrip_chars p rest else cs
  | [] => []
  end.

Definition strip_with (p : ascii -> bool) (s : string) : string :=
  string_of_list_ascii
    (rev (lstrip_chars p (rev (lstrip_chars p (list_ascii_of_string s))))).

(** [s.strip()] *)
Definition strip (s : string) : string := strip_with is_space s.

(** [s.strip(dq)] where [dq] is the double-quote character. *)
Definition dquote : ascii := ascii_of_nat 34.

Definition strip_dquote (s : string) : string :=
  strip_with (fun c => Ascii.eqb c dquote) s.

(** [bool(s.strip())]: false exactly on strings made of whitespace only. *)
Definition is_blank (s : string) : bool :=
  forallb is_space (list_ascii_of_string s).

(** [bool(s)] for a string. *)
Definition truthy (s : string) : bool := negb (String.eqb s EmptyString).

(** [sep.join(xs)] *)
Fixpoint join (sep : string) (xs : list string) : string :=
  match xs with
  | [] => EmptyString
  | [x] => x
  | x :: rest => x +++ sep +++ join sep rest
  end.

(** [needle in hay] for strings. *)
Definition contains (needle hay : string) : bool :=
  match String.index 0 needle hay with Some _ => true | None => false end.

(** [s.endswith(suffix)] *)
Definition endswith (s suffix : string) : bool :=
  let n := String.length s in
  let k := String.length suffix in
  (k <=? n)%nat && String.eqb (substring (n - k) k s) suffix.

(** [s.lower()] on ASCII. *)
Definition lower_char (c : ascii) : ascii :=
  let n := nat_of_ascii c in
  if (65 <=? n) && (n <=? 90) then ascii_of_nat (n + 32) else c.

Definition lower (s : string) : string :=
  string_of_list_ascii (map lower_char (list_ascii_of_string s)).

(** [section.split(" ", 1)[-1]] *)
Fixpoint after_first_space (s : string) : option string :=
  match s with
  | EmptyString => None
  | String c rest => if Ascii.eqb c " "%char then Some rest else after_first_space rest
  end.

Definition split1_last (s : string) : string :=
  match after_first_space s with Some r => r | None => s end.

(** [repr(s)] of a Python string over ASCII: single quotes unless the
    string contains a single quote and no double quote; backslash, the
    quote, \t \n \r escaped, other non-printable characters as \xNN. *)
Definition hex_digit (n : nat) : ascii :=
  if n <? 10 then ascii_of_nat (48 + n) else ascii_of_nat (87 + n).

Definition repr_char (q : ascii) (c : ascii) : string :=
  let n := nat_of_ascii c in
  if Ascii.eqb c "\"%char then "\\"
  else if Ascii.eqb c q then String "\"%char (String q EmptyString)
  else if n =? 9 then "\t"
  else if n =? 10 then "\n"
  else if n =? 13 then "\r"
  else if (n <? 32) || (n =? 127) then
    String "\"%char (String "x"%char
      (String (hex_digit (n / 16)) (String (hex_digit (n mod 16)) EmptyString)))
  else String c EmptyString.

Definition py_repr_str (s : string) : string :=
  let cs := list_ascii_of_string s in
  let q := if existsb (fun c => Ascii.eqb c "'"%char) cs
              && negb (existsb (fun c => Ascii.eqb c dquote) cs)
           then dquote else "'"%char in
  String q (fold_right (fun c acc => repr_char q c +++ acc) (String q EmptyString) cs).

(** [repr(lines)] for a list of strings. *)
Definition py_repr_list (xs : list string) : string :=
  "[" +++ join ", " (map py_repr_str xs) +++ "]".

(** ** Processes, exceptions, observable events *)

(** [subprocess.CompletedProcess] with captured text output. *)
Record proc := mk_proc { returncode : Z; stdout : string; stderr : string }.

(** Python exceptions raised by the script: [WorkflowError] and every other
    exception (e.g. the [ValueError] of [Path.relative_to], or a
    [configparser] error), which [main] does not catch. *)
Inductive exn :=
| WorkflowError (msg : string)
| OtherError (kind msg : string).

(** What an observer of one run sees, in order. *)
Inductive event :=
| Exec (cmd : list string) (r : proc)   (* an external process was run *)
| Out (line : string)                   (* [print(line)] *)
| ErrOut (line : string)                (* [print(line, file=sys.stderr)] *)
| ChildOut (text : string)              (* a child writing to the inherited stdout *)
| ChildErr (text : string).             (* a child writing to the inherited stderr *)

(** The external world as seen through the primitives the script calls. *)
Record Env (W : Type) := mk_env {
  subprocess_run : list string -> W -> proc * W;
  which : string -> W -> bool;
  path_resolve : string -> W -> string;
  path_exists : string -> W -> bool;
  read_gitmodules : string -> W -> option (list (string * option string))
}.
Arguments mk_env {W}.
Arguments subprocess_run {W}.
Arguments which {W}.
Arguments path_resolve {W}.
Arguments path_exists {W}.
Arguments read_gitmodules {W}.

Record St (W : Type) := mk_st { world : W; trace : list event; DEBUG : bool }.
Arguments mk_st {W}.
Arguments world {W}.
Arguments trace {W}.
Arguments DEBUG {W}.

Inductive outcome (A : Type) := Ok (a : A) | Raise (e : exn).
Arguments Ok {A}.
Arguments Raise {A}.

(** The state/exception monad of the script. *)
Definition M (W A : Type) := St W -> outcome A * St W.

Definition ret {W A} (a : A) : M W A := fun s => (Ok a, s).

Definition bind {W A B} (m : M W A) (k : A -> M W B) : M W B :=
  fun s => match m s with
           | (Ok a, s') => k a s'
           | (Raise e, s') => (Raise e, s')
           end.

Definition raise {W A} (e : exn) : M W A := fun s => (Raise e, s).

Notation "x <- c1 ;; c2" := (bind c1 (fun x => c2))
  (at level 61, c1 at next level, right associativity).
Notation "c1 ;; c2" := (bind c1 (fun _ => c2)) (at level 61, right associativity).

Definition emit {W} (ev : event) : M W unit :=
  fun s => (Ok tt, mk_st (world s) (trace s ++ [ev]) (DEBUG s)).

Definition print_out {W} (line : string) : M W unit := emit (Out line).
Definition print_err {W} (line : string) : M W unit := emit (ErrOut line).

Definition get_debug {W} : M W bool := fun s => (Ok (DEBUG s), s).
Definition set_debug {W} (b : bool) : M W unit :=
  fun s => (Ok tt, mk_st (world s) (trace s) b).

Definition read_world {W A} (f : W -> A) : M W A := fun s => (Ok (f (world s)), s).

(** [try: body except WorkflowError as exc: handler(msg)] *)
Definition catch_workflow {W A} (body : M W A) (handler : string -> M W A) : M W A :=
  fun s => match body s with
           | (Raise (WorkflowError msg), s') => handler msg s'
           | r => r
           end.

(** [bool(xs)] for a list. *)
Definition nonempty {A} (xs : list A) : bool := match xs with [] => false | _ => true end.

(** Paths are strings: the [str()] of a [PurePosixPath], which pathlib keeps
    as an anchor and a list of parts. *)
Definition slash : ascii := "/"%char.

Definition is_absolute (p : string) : bool :=
  match p with String c _ => Ascii.eqb c slash | EmptyString => false end.

(** [s.split(c)] for a one-character separator. *)
Fixpoint split_on (c : ascii) (s : string) : list string :=
  match s with
  | EmptyString => [EmptyString]
  | String x rest =>
      if Ascii.eqb x c then EmptyString :: split_on c rest
      else match split_on c rest with
           | [] => [String x EmptyString]
           | piece :: pieces => String x piece :: pieces
           end
  end.

(** [posixpath.splitroot]: the anchor ([""], ["/"], or ["//"] for exactly two
    leading slashes) and the rest of the path. *)
Definition splitroot (p : string) : string * string :=
  match p with
  | String c1 r1 =>
      if Ascii.eqb c1 slash then
        match r1 with
        | String c2 r2 =>
            if Ascii.eqb c2 slash then
              match r2 with
              | String c3 _ => if Ascii.eqb c3 slash then ("/", r1) else ("//", r2)
              | EmptyString => ("//", r2)
              end
            else ("/", r1)
        | EmptyString => ("/", r1)
        end
      else (EmptyString, p)
  | EmptyString => (EmptyString, EmptyString)
  end.

(** pathlib drops empty components and ["."]; [".."] is kept. *)
Definition kept_part (x : string) : bool :=
  negb (String.eqb x EmptyString || String.eqb x ".").

Definition parts_of (rel : string) : list string :=
  filter kept_part (split_on slash rel).

(** [PurePosixPath(p)]: its anchor and its parts. *)
Definition parse_path (p : string) : string * list string :=
  (fst (splitroot p), parts_of (snd (splitroot p))).

(** [str()] of a path with the given anchor and parts. *)
Definition render_path (anchor : string) (parts : list string) : string :=
  if String.eqb anchor EmptyString && negb (nonempty parts) then "."
  else anchor +++ join "/" parts.

(** [str(PurePosixPath(p))]: the normal form of [p]. *)
Definition path_str (p : string) : string :=
  render_path (fst (parse_path p)) (snd (parse_path p)).

(** [os.path.join(a, b)] on POSIX, which [a / b] follows. *)
Definition posix_join (a b : string) : string :=
  if is_absolute b then b
  else if String.eqb a EmptyString || endswith a "/" then a +++ b
  else a +++ "/" +++ b.

(** [c] does not occur in [x]. *)
Definition no_char (c : ascii) (x : string) : bool :=
  negb (existsb (fun ch => Ascii.eqb ch c) (list_ascii_of_string x)).

(** A part as pathlib keeps it: kept and free of slashes. *)
Definition clean_part (x : string) : bool := kept_part x && no_char slash x.

(** [str(root / p)] *)
Definition path_join (root p : string) : string := path_str (posix_join root p).

Fixpoint parts_prefix (xs ys : list string) : bool :=
  match xs, ys with
  | [], _ => true
  | x :: xs', y :: ys' => String.eqb x y && parts_prefix xs' ys'
  | _ :: _, [] => false
  end.

(** [str(PurePosixPath(p).relative_to(root))]: the anchors must agree and the
    parts of [root] must begin the parts of [p]; [None] is the [ValueError]
    it raises otherwise. *)
Definition relative_to (p root : string) : option string :=
  if String.eqb (fst (parse_path p)) (fst (parse_path root))
     && parts_prefix (snd (parse_path root)) (snd (parse_path p))
  then Some (render_path EmptyString
               (skipn (length (snd (parse_path root))) (snd (parse_path p))))
  else None.

(** [@dataclass class Submodule] *)
Record Submodule := mk_submodule { name : string; path : string }.

Section Workflow.
Context {W : Type} (E : Env W).

(** [subprocess.run(cmd, ...)]: runs the process and records it. *)
Definition exec (cmd : list string) : M W proc :=
  fun s => let (r, w') := subprocess_run E cmd (world s) in
           (Ok r, mk_st w' (trace s ++ [Exec cmd r]) (DEBUG s)).

(** [subprocess.run(cmd, text=True)] without [capture_output]: the child
    inherits the script's stdout and stderr and writes its output there.
    Only [returncode] of the result is meaningful: its [stdout] and [stderr]
    are [None], kept empty here and never read. *)
Definition exec_inherit (cmd : list string) : M W proc :=
  fun s => let (r, w') := subprocess_run E cmd (world s) in
           (Ok (mk_proc (returncode r) EmptyString EmptyString),
            mk_st w' (trace s ++ [Exec cmd r; ChildOut (stdout r); ChildErr (stderr r)]) (DEBUG s)).

(** [debug] *)
Definition debug (msg : string) : M W unit :=
  d <- get_debug ;;
  if d then print_err ("[submodule-workflow] " +++ msg) else ret tt.

Definition git_cmd (directory : string) (args : list string) : list string :=
  "git" :: "-C" :: directory :: args.

(** [result.stderr.strip() or result.stdout.strip()] *)
Definition diagnostic (r : proc) : string :=
  if truthy (strip (stderr r)) then strip (stderr r) else strip (stdout r).

(** [run_git] *)
Definition run_git (directory : string) (args : list string) (check : bool) : M W proc :=
  let cmd := git_cmd directory args in
  debug ("Executing: " +++ join " " cmd) ;;
  result <- exec cmd ;;
  if check && negb (returncode result =? 0)%Z
  then raise (WorkflowError (diagnostic result))
  else ret result.

(** [ensure_repo] *)
Definition ensure_repo (p : string) : M W string :=
  root <- read_world (path_resolve E p) ;;
  ok <- read_world (path_exists E (path_join root ".gitmodules")) ;;
  if ok then ret root
  else raise (WorkflowError ("Expected to find a .gitmodules file in " +++ root
                             +++ "; is this the ape repository?")).

(** The loop of [load_submodules] over [parser.sections()]. *)
Fixpoint load_loop (root : string) (sections : list (string * option string))
    (submodules : list Submodule) : list Submodule :=
  match sections with
  | [] => submodules
  | (section, p) :: rest =>
      match p with
      | Some p' =>
          if truthy p' then
            load_loop root rest
              (submodules ++ [mk_submodule (strip_dquote (split1_last section)) (path_join root p')])
          else load_loop root rest submodules
      | None => load_loop root rest submodules
      end
  end.

(** [load_submodules] *)
Definition load_submodules (root : string) : M W (list Submodule) :=
  parsed <- read_world (read_gitmodules E (path_join root ".gitmodules")) ;;
  match parsed with
  | None => raise (OtherError "configparser.Error" (path_join root ".gitmodules"))
  | Some sections => ret (load_loop root sections [])
  end.

(** [git_status_lines] *)
Definition git_status_lines (p : string) : M W (list string) :=
  result <- run_git p ["status"; "--porcelain"] false ;;
  if negb (returncode result =? 0)%Z then ret []
  else ret (filter (fun line => negb (is_blank line)) (splitlines (stdout result))).

(** The loop of [changed_submodules], [dirty] being the accumulator. *)
Fixpoint changed_loop (submodules : list Submodule) (include_clean : bool)
    (dirty : list Submodule) : M W (list Submodule) :=
  match submodules with
  | [] => ret dirty
  | submodule :: rest =>
      lines <- git_status_lines (path submodule) ;;
      (if nonempty lines || include_clean
       then debug ("Submodule " +++ name submodule +++ " status: " +++ py_repr_list lines)
       else ret tt) ;;
      changed_loop rest include_clean
        (if nonempty lines then dirty ++ [submodule] else dirty)
  end.

(** [changed_submodules] *)
Definition changed_submodules (submodules : list Submodule) (include_clean : bool)
    : M W (list Submodule) :=
  changed_loop submodules include_clean [].

(** [for x in xs: body(x)] *)
Fixpoint for_each {A} (xs : list A) (body : A -> M W unit) : M W unit :=
  match xs with
  | [] => ret tt
  | x :: rest => body x ;; for_each rest body
  end.

(** [get_current_branch] *)
Definition get_current_branch (p : string) : M W (option string) :=
  result <- run_git p ["rev-parse"; "--abbrev-ref"; "HEAD"] false ;;
  if negb (returncode result =? 0)%Z then ret None
  else let branch := strip (stdout result) in
       ret (if String.eqb branch "HEAD" then None else Some branch).

(** [bool(x)] for an [Optional[str]]. *)
Definition opt_truthy (x : option string) : bool :=
  match x with Some s => truthy s | None => false end.

(** [x == y] for two [Optional[str]]. *)
Definition opt_eqb (x y : option string) : bool :=
  match x, y with
  | Some a, Some b => String.eqb a b
  | None, None => true
  | _, _ => false
  end.

(** [ensure_branch] *)
Definition ensure_branch (p branch : string) (base : option string) (remote : string)
    (force : bool) : M W string :=
  current <- get_current_branch p ;;
  if opt_eqb current (Some branch) then ret branch
  else
  existing <- run_git p ["rev-parse"; "--verify"; branch] false ;;
  if (returncode existing =? 0)%Z then
    debug ("Branch " +++ branch +++ " already exists; checking it out.") ;;
    run_git p ["checkout"; branch] true ;;
    ret branch
  else
  status <- git_status_lines p ;;
  (match base with
   | Some b =>
       if truthy b && negb (nonempty status) then
         debug ("Checking out base branch " +++ b +++ " before creating " +++ branch +++ ".") ;;
         run_git p ["fetch"; remote; b] false ;;
         run_git p ["checkout"; b] true ;;
         run_git p ["pull"; remote; b] false ;;
         ret tt
       else ret tt
   | None => ret tt
   end) ;;
  let checkout_args := ["checkout"; if force then "-B" else "-b"; branch] in
  debug ("Creating branch " +++ branch +++ " using args: " +++ py_repr_list checkout_args) ;;
  run_git p checkout_args true ;;
  ret branch.

(** [push_branch] *)
Definition push_branch (p branch remote : string) (set_upstream : bool) : M W unit :=
  let args := if set_upstream then ["push"; "-u"; remote; branch] else ["push"; remote; branch] in
  run_git p args true ;;
  ret tt.

End Workflow.

(** [str(n)] for an integer. *)
Fixpoint digits_aux (fuel : nat) (n : Z) (acc : string) : string :=
  match fuel with
  | O => acc
  | S f =>
      let acc' := String (ascii_of_nat (48 + Z.to_nat (n mod 10))) acc in
      if (n / 10 =? 0)%Z then acc' else digits_aux f (n / 10) acc'
  end.

Definition z_to_string (z : Z) : string :=
  let fuel := S (Z.to_nat (Z.log2 (Z.abs z))) in
  if (z <? 0)%Z then "-" +++ digits_aux fuel (- z) EmptyString
  else digits_aux fuel z EmptyString.

(** [detect_mr_tool]; [shutil.which] is read in the world [w]. *)
Definition detect_mr_tool {W} (E : Env W) (w : W) (remote_url : string) : option string :=
  let remote_url := lower remote_url in
  if contains "gitlab" remote_url && which E "glab" w then Some "glab"
  else if (contains "github" remote_url || endswith remote_url ".git") && which E "gh" w
  then Some "gh"
  else if which E "glab" w then Some "glab"
  else if which E "gh" w then Some "gh"
  else None.

(** [title or branch] *)
Definition title_or (title : option string) (branch : string) : string :=
  match title with Some t => if truthy t then t else branch | None => branch end.

Definition title_args (title : option string) : list string :=
  match title with Some t => if truthy t then ["--title"; t] else [] | None => [] end.

(** The command list built by [create_merge_request] for [tool]. *)
Definition mr_command (tool branch target : string) (title : option string) (draft : bool)
    : list string :=
  if String.eqb tool "glab" then
    ["glab"; "mr"; "create"; "--source-branch"; branch; "--target-branch"; target]
      ++ title_args title ++ (if draft then ["--draft"] else [])
  else
    ["gh"; "pr"; "create"; "--head"; branch; "--base"; target]
      ++ title_args title ++ (if draft then ["--draft"] else []).

(** [{module.name: module for module in submodules}[n]]: the last entry wins. *)
Definition name_map_get (submodules : list Submodule) (n : string) : option Submodule :=
  fold_left (fun acc m => if String.eqb (name m) n then Some m else acc) submodules None.

(** The CLI subcommands with their own options. *)
Inductive Command :=
| CmdStatus
| CmdBranch (bname : string) (base : option string) (remote : string) (force : bool)
| CmdPush (remote : string) (set_upstream : bool)
| CmdMr (target : string) (title : option string) (draft : bool)
| CmdUpdateParent.

(** The [argparse.Namespace] produced by [parse_args]. *)
Record Namespace := mk_args {
  repo_root : string;
  include_clean : bool;
  modules : option (list string);
  verbose : bool;
  command : Command
}.

Section Commands.
Context {W : Type} (E : Env W).

(** [create_merge_request] *)
Definition create_merge_request (p branch target : string) (title : option string)
    (draft : bool) : M W unit :=
  r <- run_git E p ["remote"; "get-url"; "origin"] true ;;
  let remote_url := strip (stdout r) in
  tool <- read_world (fun w => detect_mr_tool E w remote_url) ;;
  match tool with
  | None =>
      print_err "No supported CLI (glab or gh) detected. Please create the merge request manually." ;;
      print_out ("Suggested title: " +++ title_or title branch) ;;
      ret tt
  | Some t =>
      let cmd := mr_command t branch target title draft in
      debug ("Running MR command: " +++ join " " cmd) ;;
      completed <- exec_inherit E cmd ;;
      if negb (returncode completed =? 0)%Z then
        raise (WorkflowError ("Merge request command failed with exit code "
                              +++ z_to_string (returncode completed) +++ "."))
      else ret tt
  end.

(** [module.path.relative_to(root)], raising [ValueError] when [root] is not
    a prefix. *)
Definition relative_path (module : Submodule) (root : string) : M W string :=
  match relative_to (path module) root with
  | Some rel => ret rel
  | None => raise (OtherError "ValueError" (path module))
  end.

(** [update_parent] *)
Definition update_parent (root : string) (submodules : list Submodule) : M W unit :=
  for_each submodules (fun module =>
    rel <- relative_path module root ;;
    run_git E root ["add"; rel] true ;;
    ret tt).

(** [resolve_targets] *)
Definition resolve_targets (root : string) (submodules : list Submodule)
    (names : option (list string)) : M W (list Submodule) :=
  match names with
  | None | Some [] => ret submodules
  | Some ns =>
      let missing := filter (fun n => match name_map_get submodules n with
                                      | Some _ => false | None => true end) ns in
      if nonempty missing then raise (WorkflowError ("Unknown submodule(s): " +++ join ", " missing))
      else ret (flat_map (fun n => match name_map_get submodules n with
                                   | Some m => [m] | None => [] end) ns)
  end.

(** [handle_status] *)
Definition handle_status (root : string) (target_modules : list Submodule)
    (include_clean : bool) : M W unit :=
  modules <- (if include_clean then ret target_modules
              else changed_submodules E target_modules false) ;;
  if negb (nonempty modules) then print_out "No dirty submodules detected."
  else for_each modules (fun module =>
    lines <- git_status_lines E (path module) ;;
    print_out (name module +++ " (" +++ path module +++ "):") ;;
    if nonempty lines then for_each lines (fun line => print_out ("  " +++ line))
    else print_out "  clean").

(** [handle_branch] *)
Definition handle_branch (root : string) (target_modules : list Submodule)
    (bname : string) (base : option string) (remote : string) (force : bool) : M W unit :=
  modules <- changed_submodules E target_modules false ;;
  if negb (nonempty modules) then print_out "No dirty submodules detected; nothing to branch."
  else for_each modules (fun module =>
    branch <- ensure_branch E (path module) bname base remote force ;;
    print_out ("Checked out " +++ branch +++ " in " +++ name module +++ " (" +++ path module +++ ").")).

(** The body of the loop of [handle_push]. *)
Definition push_one (remote : string) (set_upstream : bool) (module : Submodule) : M W unit :=
  branch <- get_current_branch E (path module) ;;
  match branch with
  | Some b =>
      if truthy b then
        push_branch E (path module) b remote set_upstream ;;
        print_out ("Pushed " +++ name module +++ " (" +++ path module +++ ") to "
                   +++ remote +++ "/" +++ b +++ ".")
      else raise (WorkflowError ("Submodule " +++ name module
                   +++ " is in a detached HEAD state; cannot push without a branch."))
  | None => raise (WorkflowError ("Submodule " +++ name module
                   +++ " is in a detached HEAD state; cannot push without a branch."))
  end.

(** [handle_push] *)
Definition handle_push (root : string) (target_modules : list Submodule)
    (remote : string) (set_upstream : bool) : M W unit :=
  modules <- changed_submodules E target_modules false ;;
  if negb (nonempty modules) then print_out "No dirty submodules detected; nothing to push."
  else for_each modules (push_one remote set_upstream).

(** The body of the loop of [handle_mr]. *)
Definition mr_one (target : string) (title : option string) (draft : bool) (module : Submodule)
    : M W unit :=
  branch <- get_current_branch E (path module) ;;
  match branch with
  | Some b =>
      if truthy b then
        create_merge_request (path module) b target title draft ;;
        print_out ("Triggered merge request creation for " +++ name module +++ " ("
                   +++ b +++ " -> " +++ target +++ ").")
      else raise (WorkflowError ("Submodule " +++ name module
             +++ " does not have an active branch; create one before opening an MR."))
  | None => raise (WorkflowError ("Submodule " +++ name module
             +++ " does not have an active branch; create one before opening an MR."))
  end.

(** [handle_mr] *)
Definition handle_mr (root : string) (target_modules : list Submodule)
    (target : string) (title : option string) (draft : bool) : M W unit :=
  modules <- changed_submodules E target_modules false ;;
  if negb (nonempty modules) then print_out "No dirty submodules detected; no merge requests created."
  else for_each modules (mr_one target title draft).

(** [handle_update_parent] *)
Definition handle_update_parent (root : string) (target_modules : list Submodule) : M W unit :=
  modules <- changed_submodules E target_modules false ;;
  if negb (nonempty modules) then print_out "No dirty submodules detected; nothing to stage in the parent."
  else
    update_parent root modules ;;
    for_each modules (fun module =>
      relative <- relative_path module root ;;
      print_out ("Staged updated hash for " +++ name module +++ " (" +++ relative +++ ").")).

(** The dispatch on [args.command] in [main]. *)
Definition dispatch (root : string) (targets : list Submodule) (args : Namespace) : M W unit :=
  match command args with
  | CmdStatus => handle_status root targets (include_clean args)
  | CmdBranch n base remote force => handle_branch root targets n base remote force
  | CmdPush remote set_upstream => handle_push root targets remote set_upstream
  | CmdMr target title draft => handle_mr root targets target title draft
  | CmdUpdateParent => handle_update_parent root targets
  end.

(** The [try] block of [main]. *)
Definition main_body (args : Namespace) : M W Z :=
  root <- ensure_repo E (repo_root args) ;;
  submodules <- load_submodules E root ;;
  if negb (nonempty submodules) then
    print_out "No submodules registered in .gitmodules." ;;
    ret 0%Z
  else
    targets <- resolve_targets root submodules (modules args) ;;
    dispatch root targets args ;;
    ret 0%Z.

(** [main], from the already parsed arguments on. *)
Definition main (args : Namespace) : M W Z :=
  set_debug (verbose args) ;;
  catch_workflow (main_body args)
    (fun msg => print_err ("Error: " +++ msg) ;; ret 1%Z).

End Commands.


(** ** A concrete world: a small model of git and of the review tools

    Used to run the embedding on concrete inputs.  Each repository has a
    current branch ([None] when HEAD is detached), local branches, tags,
    porcelain status lines and named remotes. *)
Module Toy.

Definition nl : string := String (ascii_of_nat 10) EmptyString.

Record repo := mk_repo {
  head : option string;
  branches : list string;
  tags : list string;
  changes : list string;
  remotes : list (string * string)
}.

Record world := mk_world {
  root_dir : string;
  gitmodules_present : bool;
  manifest : list (string * option string);
  repos : list (string * repo);
  tools : list string;
  mr_exit : Z
}.

Fixpoint lookup {A} (k : string) (l : list (string * A)) : option A :=
  match l with
  | [] => None
  | (k', v) :: rest => if String.eqb k k' then Some v else lookup k rest
  end.

Fixpoint update {A} (k : string) (v : A) (l : list (string * A)) : list (string * A) :=
  match l with
  | [] => []
  | (k', v') :: rest => if String.eqb k k' then (k', v) :: rest else (k', v') :: update k v rest
  end.

Definition mem (x : string) (xs : list string) : bool := existsb (String.eqb x) xs.

(** git refuses these names for new branches. *)
Definition valid_branch_name (x : string) : bool :=
  truthy x && negb (String.eqb x "HEAD") && forallb (fun c => negb (is_space c)) (list_ascii_of_string x).

Definition set_repo (w : world) (d : string) (r : repo) : world :=
  mk_world (root_dir w) (gitmodules_present w) (manifest w) (update d r (repos w)) (tools w) (mr_exit w).

Definition with_head (r : repo) (h : option string) (bs : list string) : repo :=
  mk_repo h bs (tags r) (changes r) (remotes r).

Definition ok (out : string) : proc := mk_proc 0 out EmptyString.
Definition fail (code : Z) (err : string) : proc := mk_proc code EmptyString err.

(** [git -C d args] *)
Definition git (d : string) (args : list string) (w : world) : proc * world :=
  match lookup d (repos w) with
  | None => (fail 128 ("fatal: cannot change to '" +++ d +++ "': No such file or directory"), w)
  | Some r =>
      match args with
      | [a1; a2] =>
          if String.eqb a1 "status" && String.eqb a2 "--porcelain" then
            (ok (String.concat EmptyString (map (fun l => l +++ nl) (changes r))), w)
          else if String.eqb a1 "checkout" then
            if mem a2 (branches r) then (ok EmptyString, set_repo w d (with_head r (Some a2) (branches r)))
            else if mem a2 (tags r) then (ok EmptyString, set_repo w d (with_head r None (branches r)))
            else (fail 1 ("error: pathspec '" +++ a2 +++ "' did not match any file(s) known to git"), w)
          else if String.eqb a1 "add" then (ok EmptyString, w)
          else (fail 129 "usage: git", w)
      | [a1; a2; a3] =>
          if String.eqb a1 "rev-parse" && String.eqb a2 "--abbrev-ref" && String.eqb a3 "HEAD" then
            match head r with
            | Some b => (ok (b +++ nl), w)
            | None => (ok ("HEAD" +++ nl), w)
            end
          else if String.eqb a1 "rev-parse" && String.eqb a2 "--verify" then
            if mem a3 (branches r) || mem a3 (tags r) then (ok ("0123abcd" +++ nl), w)
            else (fail 128 "fatal: Needed a single revision", w)
          else if String.eqb a1 "checkout" && String.eqb a2 "-b" then
            if valid_branch_name a3 && negb (mem a3 (branches r)) then
              (ok EmptyString, set_repo w d (with_head r (Some a3) (branches r ++ [a3])))
            else (fail 128 ("fatal: a branch named '" +++ a3 +++ "' already exists"), w)
          else if String.eqb a1 "checkout" && String.eqb a2 "-B" then
            if valid_branch_name a3 then
              (ok EmptyString, set_repo w d (with_head r (Some a3)
                 (if mem a3 (branches r) then branches r else branches r ++ [a3])))
            else (fail 128 ("fatal: '" +++ a3 +++ "' is not a valid branch name"), w)
          else if String.eqb a1 "remote" && String.eqb a2 "get-url" then
            match lookup a3 (remotes r) with
            | Some u => (ok (u +++ nl), w)
            | None => (fail 2 ("error: No such remote '" +++ a3 +++ "'"), w)
            end
          else if (String.eqb a1 "fetch" || String.eqb a1 "pull" || String.eqb a1 "push") then
            match lookup a2 (remotes r) with
            | Some _ => (ok EmptyString, w)
            | None => (fail 128 ("fatal: '" +++ a2 +++ "' does not appear to be a git repository"), w)
            end
          else (fail 129 "usage: git", w)
      | [a1; a2; a3; a4] =>
          if String.eqb a1 "push" && String.eqb a2 "-u" then
            match lookup a3 (remotes r) with
            | Some _ => (ok EmptyString, w)
            | None => (fail 128 ("fatal: '" +++ a3 +++ "' does not appear to be a git repository"), w)
            end
          else (fail 129 "usage: git", w)
      | _ => (fail 129 "usage: git", w)
      end
  end.

(** An installed review tool: it reports on stdout, and on stderr when it
    fails. *)
Definition tool_result (w : world) : proc :=
  mk_proc (mr_exit w) "Creating merge request"
    (if (mr_exit w =? 0)%Z then EmptyString else "error: merge request rejected").

(** [subprocess.run(cmd)] *)
Definition run (cmd : list string) (w : world) : proc * world :=
  match cmd with
  | g :: c :: d :: args =>
      if String.eqb g "git" && String.eqb c "-C" then git d args w
      else if mem g (tools w) then (tool_result w, w)
      else (fail 127 "not found", w)
  | g :: _ =>
      if mem g (tools w) then (tool_result w, w)
      else (fail 127 "not found", w)
  | [] => (fail 127 "not found", w)
  end.

Definition env : Env world :=
  mk_env run
    (fun t w => mem t (tools w))
    (fun p w => p)
    (fun p w => String.eqb p (path_join (root_dir w) ".gitmodules") && gitmodules_present w)
    (fun p w => Some (if gitmodules_present w then manifest w else [])).

Definition st (w : world) : St world := mk_st w [] false.

End Toy.

(** ** Concrete fixtures: a parent repository [/r] with submodules [lib]
    (uncommitted change, tag [v1]) and [docs] (clean). *)
Module Fixtures.
Import Toy.

Definition parent : repo :=
  mk_repo (Some "main") ["main"] [] [] [("origin", "https://github.com/ape/ape.git")].

Definition lib_repo : repo :=
  mk_repo (Some "main") ["main"] ["v1"] [" M src/lib.c"] [("origin", "https://gitlab.com/ape/lib.git")].

Definition docs_repo : repo :=
  mk_repo (Some "main") ["main"] [] [] [("origin", "https://github.com/ape/docs.git")].

Definition w0 : world :=
  mk_world "/r" true
    [("submodule lib", Some "vendor/lib"); ("submodule docs", Some "vendor/docs")]
    [("/r", parent); ("/r/vendor/lib", lib_repo); ("/r/vendor/docs", docs_repo)]
    ["gh"] 0.

Definition lib : Submodule := mk_submodule "lib" "/r/vendor/lib".
Definition docs : Submodule := mk_submodule "docs" "/r/vendor/docs".
Definition subs0 : list Submodule := [lib; docs].

(** A manifest without entries. *)
Definition w_empty : world := mk_world "/r" true [] [("/r", parent)] ["gh"] 0.

(** A manifest whose entry has an absolute path, outside the root. *)
Definition w_abs : world :=
  mk_world "/r" true [("submodule lib", Some "/abs/lib")]
    [("/r", parent); ("/abs/lib", lib_repo)] ["gh"] 0.


(** Three dirty submodules; [b] has a detached HEAD. *)
Definition on_feat (chg : string) : repo :=
  mk_repo (Some "feat") ["main"; "feat"] [] [chg] [("origin", "https://github.com/ape/x.git")].

Definition w_det : world :=
  mk_world "/r" true
    [("submodule a", Some "vendor/a"); ("submodule b", Some "vendor/b"); ("submodule c", Some "vendor/c")]
    [("/r", parent); ("/r/vendor/a", on_feat " M a");
     ("/r/vendor/b", mk_repo None ["main"] [] [" M b"] [("origin", "https://github.com/ape/b.git")]);
     ("/r/vendor/c", on_feat " M c")]
    ["gh"] 0.

Definition sub_a : Submodule := mk_submodule "a" "/r/vendor/a".
Definition sub_b : Submodule := mk_submodule "b" "/r/vendor/b".
Definition sub_c : Submodule := mk_submodule "c" "/r/vendor/c".

(** [docs] with a tag [v2]. *)
Definition w_tag : world :=
  mk_world "/r" true
    [("submodule docs", Some "vendor/docs")]
    [("/r", parent);
     ("/r/vendor/docs", mk_repo (Some "main") ["main"] ["v2"] [] [("origin", "https://github.com/ape/docs.git")])]
    ["gh"] 0.

Definition args_of (mods : option (list string)) (c : Command) : Namespace :=
  mk_args "/r" false mods false c.

(** A parent repository without [.gitmodules]. *)
Definition w_nogm : world := mk_world "/r" false [] [("/r", parent)] ["gh"] 0.

(** The same primitives, with a [.gitmodules] that [configparser] rejects. *)
Definition env_bad : Env world :=
  mk_env run
    (fun t w => mem t (tools w))
    (fun p w => p)
    (fun p w => String.eqb p (path_join (root_dir w) ".gitmodules") && gitmodules_present w)
    (fun p w => None).

(** [glab] installed, exiting with status 3. *)
Definition w_mr_fail : world :=
  mk_world "/r" true [("submodule lib", Some "vendor/lib")]
    [("/r", parent); ("/r/vendor/lib", lib_repo)] ["glab"] 3.

End Fixtures.

(** ** Observations used to state the properties *)

Section Observations.
Context {W : Type} (E : Env W).

Definition status_cmd (p : string) : list string := git_cmd p ["status"; "--porcelain"].

(** The non-blank lines of a porcelain status result; none when it failed. *)
Definition status_lines_of (r : proc) : list string :=
  if negb (returncode r =? 0)%Z then []
  else filter (fun line => negb (is_blank line)) (splitlines (stdout r)).

(** The dirtiness predicate stated on the raw query result: the query
    succeeded and printed at least one non-blank line. *)
Definition status_dirty (w : W) (m : Submodule) : bool :=
  let r := fst (subprocess_run E (status_cmd (path m)) w) in
  (returncode r =? 0)%Z && existsb (fun line => negb (is_blank line)) (splitlines (stdout r)).

(** [git status] leaves the world as it is for each of [subs]. *)
Definition status_read_only (w : W) (subs : list Submodule) : Prop :=
  Forall (fun m => snd (subprocess_run E (status_cmd (path m)) w) = w) subs.

(** The external commands of a list of events, in order. *)
Definition execs (tr : list event) : list (list string) :=
  flat_map (fun ev => match ev with Exec c _ => [c] | _ => [] end) tr.

(** The git commands [ensure_branch] may issue in [p]. *)
Definition abbrev_cmd (p : string) := git_cmd p ["rev-parse"; "--abbrev-ref"; "HEAD"].
Definition verify_cmd (p b : string) := git_cmd p ["rev-parse"; "--verify"; b].
Definition checkout_cmd (p b : string) := git_cmd p ["checkout"; b].
Definition fetch_cmd (p remote b : string) := git_cmd p ["fetch"; remote; b].
Definition pull_cmd (p remote b : string) := git_cmd p ["pull"; remote; b].
Definition create_cmd (p : string) (force : bool) (b : string) :=
  git_cmd p ["checkout"; if force then "-B" else "-b"; b].

Definition geturl_cmd (p : string) := git_cmd p ["remote"; "get-url"; "origin"].

(** The events of [debug msg] with the debug flag [d]. *)
Definition dbg_evs (d : bool) (msg : string) : list event :=
  if d then [ErrOut ("[submodule-workflow] " +++ msg)] else [].

(** The current branch reported by the ref query in [w]. *)
Definition current_obs (w : W) (p : string) : option string :=
  let r := fst (subprocess_run E (abbrev_cmd p) w) in
  if negb (returncode r =? 0)%Z then None
  else if String.eqb (strip (stdout r)) "HEAD" then None else Some (strip (stdout r)).

(** The ref lookup of [b] succeeds in [w]. *)
Definition verify_ok (w : W) (p b : string) : bool :=
  (returncode (fst (subprocess_run E (verify_cmd p b) w)) =? 0)%Z.

(** A (non-empty) base branch was given and the working tree is clean in [w]. *)
Definition base_sync (w : W) (p : string) (base : option string) : bool :=
  match base with
  | Some b0 => truthy b0 && negb (nonempty (status_lines_of (fst (subprocess_run E (status_cmd p) w))))
  | None => false
  end.

(** The three queries of [ensure_branch] leave the world as it is. *)
Definition queries_read_only (w : W) (p b : string) : Prop :=
  snd (subprocess_run E (abbrev_cmd p) w) = w
  /\ snd (subprocess_run E (verify_cmd p b) w) = w
  /\ snd (subprocess_run E (status_cmd p) w) = w.

(** The external commands of a list of events with their results. *)
Definition exec_results (tr : list event) : list (list string * proc) :=
  flat_map (fun ev => match ev with Exec c r => [(c, r)] | _ => [] end) tr.

(** The git commands of [ensure_branch] that run with [check=True]: the
    [checkout] forms. *)
Definition is_checkout (c : list string) : bool :=
  match c with _ :: _ :: _ :: a :: _ => String.eqb a "checkout" | _ => false end.

(** [c] may only run commands satisfying [P]. *)
Definition runs_only (P : list string -> Prop) {A} (c : M W A) : Prop :=
  forall s, exists evs, trace (snd (c s)) = trace s ++ evs /\ Forall P (execs evs).

(** [c] runs its commands in segments, each attributed to an element of [xs]
    and made of commands related to that element by [R]. *)
Definition seg_only (R : Submodule -> list string -> Prop) (xs : list Submodule) {A} (c : M W A)
    : Prop :=
  forall s, exists evs segs, trace (snd (c s)) = trace s ++ evs
    /\ execs evs = execs (concat (map snd segs))
    /\ Forall (fun sg => In (fst sg) xs /\ Forall (R (fst sg)) (execs (snd sg))) segs.

(** The commands that concern submodule [m] of the parent [root]: git run
    inside [m], staging [m] in the parent, or a review-tool command. *)
Definition concerns (root : string) (m : Submodule) (c : list string) : Prop :=
  (exists args, c = git_cmd (path m) args)
  \/ (exists rel, relative_to (path m) root = Some rel /\ c = git_cmd root ["add"; rel])
  \/ (exists args, c = "glab" :: args \/ c = "gh" :: args).

(** The [missing] list of [resolve_targets]. *)
Definition missing_names (submodules : list Submodule) (names : list string) : list string :=
  filter (fun n => match name_map_get submodules n with Some _ => false | None => true end) names.

(** What child processes wrote to the script's inherited stdout and
    stderr, in order. *)
Definition child_outs (tr : list event) : list string :=
  flat_map (fun ev => match ev with ChildOut t => [t] | _ => [] end) tr.

Definition child_errs (tr : list event) : list string :=
  flat_map (fun ev => match ev with ChildErr t => [t] | _ => [] end) tr.

(** The lines the script prints to stdout, in order. *)
Definition outs (tr : list event) : list string :=
  flat_map (fun ev => match ev with Out l => [l] | _ => [] end) tr.

(** The lines the script prints to stderr, in order. *)
Definition errs (tr : list event) : list string :=
  flat_map (fun ev => match ev with ErrOut l => [l] | _ => [] end) tr.

(** What [handle_status] prints for one submodule with status [lines]. *)
Definition status_report (m : Submodule) (lines : list string) : list string :=
  (name m +++ " (" +++ path m +++ "):")
  :: (if nonempty lines then map (fun line => "  " +++ line) lines else ["  clean"]).

(** The message of a subcommand that finds nothing dirty. *)
Definition no_dirty_msg (c : Command) : string :=
  match c with
  | CmdStatus => "No dirty submodules detected."
  | CmdBranch _ _ _ _ => "No dirty submodules detected; nothing to branch."
  | CmdPush _ _ => "No dirty submodules detected; nothing to push."
  | CmdMr _ _ _ => "No dirty submodules detected; no merge requests created."
  | CmdUpdateParent => "No dirty submodules detected; nothing to stage in the parent."
  end.

(** The [(section, path)] entries of a parsed manifest that [load_submodules]
    registers: those with a non-empty path. *)
Definition registered_entries (sections : list (string * option string)) : list (string * string) :=
  flat_map (fun e => match snd e with
                     | Some p => if truthy p then [(fst e, p)] else []
                     | None => []
                     end) sections.

(** The [git add] commands [update_parent] issues for [subs] in [root]. *)
Definition add_cmds (root : string) (subs : list Submodule) : list (list string) :=
  flat_map (fun m => match relative_to (path m) root with
                     | Some rel => [git_cmd root ["add"; rel]]
                     | None => []
                     end) subs.

(** A line written by [debug]. *)
Definition debug_line (ev : event) : bool :=
  match ev with ErrOut l => String.prefix "[submodule-workflow] " l | _ => false end.

End Observations.

(** * Properties *)

Section StatusScan.
Context {W : Type} (E : Env W).

Lemma git_status_lines_eq (p : string) (s : St W) :
  exists evs,
    git_status_lines E p s =
    (Ok (status_lines_of (fst (subprocess_run E (status_cmd p) (world s)))),
     mk_st (snd (subprocess_run E (status_cmd p) (world s))) (trace s ++ evs) (DEBUG s)).
Proof.
  unfold git_status_lines, run_git, debug, get_debug, bind, ret, exec, print_err, emit,
    status_lines_of, status_cmd.
  destruct s as [w tr d]; destruct d; simpl;
  destruct (subprocess_run E (git_cmd p ["status"; "--porcelain"]) w) as [r w'];
  simpl; destruct (returncode r =? 0)%Z; simpl;
  eexists; rewrite <- ?app_assoc; reflexivity.
Qed.

Lemma debug_eq (msg : string) (s : St W) :
  exists evs, debug msg s = (Ok tt, mk_st (world s) (trace s ++ evs) (DEBUG s)).
Proof.
  unfold debug, get_debug, bind, print_err, emit, ret.
  destruct s as [w tr d]; destruct d; simpl.
  - eexists; reflexivity.
  - exists []. rewrite app_nil_r. reflexivity.
Qed.

Lemma nonempty_filter {A} (f : A -> bool) (l : list A) :
  nonempty (filter f l) = existsb f l.
Proof.
  induction l as [|x l IH]; simpl; [reflexivity|].
  destruct (f x); simpl; auto.
Qed.

Lemma changed_loop_eq (include_clean : bool) :
  forall subs dirty s, status_read_only E (world s) subs ->
    fst (changed_loop E subs include_clean dirty s) = Ok (dirty ++ filter (status_dirty E (world s)) subs)
    /\ world (snd (changed_loop E subs include_clean dirty s)) = world s.
Proof.
  induction subs as [|m rest IH]; intros dirty s Hro.
  - simpl. rewrite app_nil_r. split; reflexivity.
  - destruct (git_status_lines_eq (path m) s) as [evs Hg].
    inversion Hro as [|? ? Hm Hrest]; subst.
    rewrite Hm in Hg.
    set (s1 := mk_st (world s) (trace s ++ evs) (DEBUG s)) in Hg.
    assert (Hdbg : exists s2, (if nonempty (status_lines_of
               (fst (subprocess_run E (status_cmd (path m)) (world s)))) || include_clean
             then debug ("Submodule " +++ name m +++ " status: " +++ py_repr_list
               (status_lines_of (fst (subprocess_run E (status_cmd (path m)) (world s)))))
             else ret tt) s1 = (Ok tt, s2) /\ world s2 = world s).
    { destruct (_ || _).
      - destruct (debug_eq ("Submodule " +++ name m +++ " status: " +++ py_repr_list
               (status_lines_of (fst (subprocess_run E (status_cmd (path m)) (world s))))) s1)
          as [evs' Hd].
        rewrite Hd. eexists; split; reflexivity.
      - eexists; split; reflexivity. }
    destruct Hdbg as [s2 [Hs2 Hw2]].
    assert (Heq : changed_loop E (m :: rest) include_clean dirty s =
      changed_loop E rest include_clean
        (if nonempty (status_lines_of (fst (subprocess_run E (status_cmd (path m)) (world s))))
         then dirty ++ [m] else dirty) s2).
    { cbn [changed_loop]. unfold bind at 1. rewrite Hg.
      unfold bind at 1. rewrite Hs2. reflexivity. }
    rewrite Heq.
    destruct (IH (if nonempty (status_lines_of (fst (subprocess_run E (status_cmd (path m)) (world s))))
                  then dirty ++ [m] else dirty) s2) as [IH1 IH2];
      [rewrite Hw2; exact Hrest|].
    rewrite IH1, IH2, Hw2. split; [|reflexivity].
    simpl filter. unfold status_dirty at 2.
    unfold status_lines_of.
    destruct (returncode (fst (subprocess_run E (status_cmd (path m)) (world s))) =? 0)%Z; simpl.
    + rewrite nonempty_filter.
      destruct (existsb _ _); simpl; [rewrite <- app_assoc|]; reflexivity.
    + reflexivity.
Qed.

(** C1: the status scanner.  A failing status query yields no lines; an
    entry is dirty exactly when its query yields at least one non-blank line;
    [changed_submodules] returns exactly the dirty entries, in input order.
    (The status queries of the scanned entries are read-only, as
    [git status] is.) *)
Theorem changed_submodules_exact
  (subs : list Submodule) (include_clean : bool) (s : St W)
  (Hro : status_read_only E (world s) subs) :
  (forall r, returncode r <> 0%Z -> status_lines_of r = [])
  /\ (forall p, fst (git_status_lines E p s) =
                Ok (status_lines_of (fst (subprocess_run E (status_cmd p) (world s)))))
  /\ (forall m, status_dirty E (world s) m =
                nonempty (status_lines_of (fst (subprocess_run E (status_cmd (path m)) (world s)))))
  /\ fst (changed_submodules E subs include_clean s) = Ok (filter (status_dirty E (world s)) subs)
  /\ world (snd (changed_submodules E subs include_clean s)) = world s.
Proof.
  split; [|split; [|split]].
  - intros r Hr. unfold status_lines_of.
    destruct (returncode r =? 0)%Z eqn:E0; [apply Z.eqb_eq in E0; contradiction|reflexivity].
  - intros p. destruct (git_status_lines_eq p s) as [evs ->]. reflexivity.
  - intros m. unfold status_dirty, status_lines_of.
    destruct (returncode _ =? 0)%Z; simpl; [rewrite nonempty_filter|]; reflexivity.
  - exact (changed_loop_eq include_clean subs [] s Hro).
Qed.

End StatusScan.

Module ToyFacts.
Import Toy.

Lemma lookup_update {A} (k : string) (v : A) (l : list (string * A)) (r : A) :
  lookup k l = Some r -> lookup k (update k v l) = Some v.
Proof.
  induction l as [|[k' v'] rest IH]; simpl; [discriminate|].
  destruct (String.eqb k k') eqn:Hk; intros H; simpl; rewrite Hk; [reflexivity|].
  apply IH. exact H.
Qed.

(** In the model, a successful [checkout -b feat] leaves [feat] current. *)
Lemma create_feat_lands (p : string) (w : world) :
  returncode (fst (subprocess_run env (create_cmd p false "feat") w)) = 0%Z ->
  current_obs env (snd (subprocess_run env (create_cmd p false "feat") w)) p = Some "feat".
Proof.
  unfold env, create_cmd, git_cmd; simpl. unfold git.
  destruct (lookup p (repos w)) as [r|] eqn:Hl; simpl; [|discriminate].
  destruct (negb (mem "feat" (branches r))); simpl; [|discriminate].
  intros _. unfold current_obs, abbrev_cmd, git_cmd, set_repo. simpl. unfold git. simpl.
  rewrite (lookup_update _ _ _ _ Hl). reflexivity.
Qed.

End ToyFacts.

Section Branching.
Context {W : Type} (E : Env W).


Lemma debug_exact (msg : string) (s : St W) :
  debug msg s = (Ok tt, mk_st (world s) (trace s ++ dbg_evs (DEBUG s) msg) (DEBUG s)).
Proof.
  destruct s as [w tr d]; destruct d; unfold debug, get_debug, bind, print_err, emit, ret; simpl.
  - reflexivity.
  - rewrite app_nil_r. reflexivity.
Qed.

Lemma run_git_exact (p : string) (args : list string) (check : bool) (s : St W) :
  run_git E p args check s =
  (if check && negb (returncode (fst (subprocess_run E (git_cmd p args) (world s))) =? 0)%Z
   then Raise (WorkflowError (diagnostic (fst (subprocess_run E (git_cmd p args) (world s)))))
   else Ok (fst (subprocess_run E (git_cmd p args) (world s))),
   mk_st (snd (subprocess_run E (git_cmd p args) (world s)))
     (trace s ++ dbg_evs (DEBUG s) ("Executing: " +++ join " " (git_cmd p args))
        ++ [Exec (git_cmd p args) (fst (subprocess_run E (git_cmd p args) (world s)))])
     (DEBUG s)).
Proof.
  unfold run_git. unfold bind at 1. rewrite debug_exact.
  unfold bind, exec; simpl.
  destruct (subprocess_run E (git_cmd p args) (world s)) as [r w']; simpl.
  rewrite <- app_assoc.
  destruct (check && negb (returncode r =? 0)%Z); reflexivity.
Qed.

Lemma get_current_branch_exact (p : string) (s : St W) :
  get_current_branch E p s =
  (Ok (current_obs E (world s) p),
   mk_st (snd (subprocess_run E (abbrev_cmd p) (world s)))
     (trace s ++ dbg_evs (DEBUG s) ("Executing: " +++ join " " (abbrev_cmd p))
        ++ [Exec (abbrev_cmd p) (fst (subprocess_run E (abbrev_cmd p) (world s)))])
     (DEBUG s)).
Proof.
  unfold get_current_branch. unfold bind at 1. rewrite run_git_exact. simpl andb.
  unfold ret, current_obs, abbrev_cmd.
  destruct (negb (returncode (fst (subprocess_run E (git_cmd p _) (world s))) =? 0)%Z); reflexivity.
Qed.

Lemma git_status_lines_exact (p : string) (s : St W) :
  git_status_lines E p s =
  (Ok (status_lines_of (fst (subprocess_run E (status_cmd p) (world s)))),
   mk_st (snd (subprocess_run E (status_cmd p) (world s)))
     (trace s ++ dbg_evs (DEBUG s) ("Executing: " +++ join " " (status_cmd p))
        ++ [Exec (status_cmd p) (fst (subprocess_run E (status_cmd p) (world s)))])
     (DEBUG s)).
Proof.
  unfold git_status_lines. unfold bind at 1. rewrite run_git_exact. simpl andb.
  unfold ret, status_lines_of, status_cmd.
  destruct (negb (returncode (fst (subprocess_run E (git_cmd p _) (world s))) =? 0)%Z); reflexivity.
Qed.

Lemma execs_app (a b : list event) : execs (a ++ b) = execs a ++ execs b.
Proof. unfold execs. apply flat_map_app. Qed.

Lemma execs_dbg (d : bool) (msg : string) : execs (dbg_evs d msg) = [].
Proof. destruct d; reflexivity. Qed.

Lemma opt_eqb_some (x : option string) (b : string) : opt_eqb x (Some b) = true <-> x = Some b.
Proof.
  destruct x as [a|]; simpl; split; intro H; try discriminate.
  - apply String.eqb_eq in H. subst. reflexivity.
  - inversion H. apply String.eqb_refl.
Qed.

Lemma bind_assoc_at {A B C} (m : M W A) (k : A -> M W B) (k' : B -> M W C) (s : St W) :
  bind (bind m k) k' s = bind m (fun x => bind (k x) k') s.
Proof. unfold bind. destruct (m s) as [[a|e] s1]; reflexivity. Qed.

Lemma bind_ret_at {A B} (a : A) (k : A -> M W B) (s : St W) : bind (ret a) k s = k a s.
Proof. reflexivity. Qed.

Lemma bind_okfun_at {A B} (a : A) (k : A -> M W B) (s : St W) :
  bind (fun s' => (Ok a, s')) k s = k a s.
Proof. reflexivity. Qed.

Lemma bind_step {A B} (c : M W A) (k : A -> M W B) (s s1 : St W) (a : A) :
  c s = (Ok a, s1) -> bind c k s = k a s1.
Proof. intros H. unfold bind. rewrite H. reflexivity. Qed.

Ltac fold_cmds H :=
  repeat match type of H with
  | context [git_cmd ?p ["rev-parse"; "--verify"; ?b]] =>
      change (git_cmd p ["rev-parse"; "--verify"; b]) with (verify_cmd p b) in H
  | context [git_cmd ?p ["checkout"; if ?f then "-B" else "-b"; ?b]] =>
      change (git_cmd p ["checkout"; if f then "-B" else "-b"; b]) with (create_cmd p f b) in H
  | context [git_cmd ?p ["checkout"; ?b]] =>
      change (git_cmd p ["checkout"; b]) with (checkout_cmd p b) in H
  | context [git_cmd ?p ["fetch"; ?r; ?b]] =>
      change (git_cmd p ["fetch"; r; b]) with (fetch_cmd p r b) in H
  | context [git_cmd ?p ["pull"; ?r; ?b]] =>
      change (git_cmd p ["pull"; r; b]) with (pull_cmd p r b) in H
  end.

Ltac step_in H :=
  unfold bind at 1 in H;
  first [ rewrite get_current_branch_exact in H | rewrite git_status_lines_exact in H
        | rewrite run_git_exact in H | rewrite debug_exact in H ];
  cbv beta iota zeta in H; cbn [world trace DEBUG andb] in H; fold_cmds H.

Ltac split_rc H :=
  match type of H with
  | context [if negb (returncode ?x =? 0)%Z then _ else _] =>
      destruct (negb (returncode x =? 0)%Z); cbv beta iota in H
  end.

Ltac crunch H :=
  repeat first [ step_in H | split_rc H | rewrite bind_assoc_at in H | rewrite bind_ret_at in H | rewrite bind_okfun_at in H | progress unfold ret in H | progress unfold raise in H ].

Ltac finish_case :=
  match goal with H : ?R = _ |- _ => subst R end;
  cbn [fst snd trace world];
  eexists; split; [rewrite <- ?app_assoc; reflexivity|];
  repeat match goal with |- _ /\ _ => split | |- _ -> _ => intro end;
  unfold verify_ok, base_sync in *;
  try contradiction; try congruence;
  rewrite ?execs_app, ?execs_dbg; simpl; try reflexivity;
  try (do 2 eexists; split; [reflexivity|];
       split; [simpl; reflexivity | first [left; reflexivity | right; reflexivity]]).

(** C2: the case order of [ensure_branch].  (1) When the ref query reports
    the requested branch, only that query runs and the result is success;
    (2) otherwise, when the ref lookup of the name succeeds, the branch is
    checked out; (3) otherwise, when a base branch was given and the tree is
    clean, the base is fetched, checked out and pulled before the branch is
    created; (4) otherwise the branch is created directly, with [-B] when
    [force] is set and [-b] otherwise.  The lists are the external commands
    run, in order. *)
Theorem ensure_branch_case_order (p b remote : string) (base : option string) (force : bool)
  (s : St W) (Hq : queries_read_only E (world s) p b) :
  let w := world s in
  let res := fst (ensure_branch E p b base remote force s) in
  let s' := snd (ensure_branch E p b base remote force s) in
  exists evs, trace s' = trace s ++ evs /\
  (current_obs E w p = Some b ->
     res = Ok b /\ execs evs = [abbrev_cmd p] /\ world s' = w) /\
  (current_obs E w p <> Some b -> verify_ok E w p b = true ->
     execs evs = [abbrev_cmd p; verify_cmd p b; checkout_cmd p b]) /\
  (current_obs E w p <> Some b -> verify_ok E w p b = false -> base_sync E w p base = true ->
     exists b0 tail, base = Some b0 /\
       execs evs = [abbrev_cmd p; verify_cmd p b; status_cmd p; fetch_cmd p remote b0;
                    checkout_cmd p b0] ++ tail /\
       (tail = [] \/ tail = [pull_cmd p remote b0; create_cmd p force b])) /\
  (current_obs E w p <> Some b -> verify_ok E w p b = false -> base_sync E w p base = false ->
     execs evs = [abbrev_cmd p; verify_cmd p b; status_cmd p; create_cmd p force b]).
Proof.
  destruct Hq as (Ha & Hv & Hs).
  destruct s as [w tr d]; cbn [world trace DEBUG] in *. cbv zeta.
  remember (ensure_branch E p b base remote force (mk_st w tr d)) as R eqn:HR.
  unfold ensure_branch in HR.
  step_in HR. rewrite Ha in HR.
  destruct (opt_eqb (current_obs E w p) (Some b)) eqn:Hc.
  - unfold ret in HR. subst R. simpl.
    apply opt_eqb_some in Hc.
    eexists; split; [reflexivity|].
    repeat split; intros; try contradiction.
    rewrite ?execs_app, ?execs_dbg. reflexivity.
  - assert (Hc' : current_obs E w p <> Some b)
      by (intro Hx; apply opt_eqb_some in Hx; congruence).
    clear Hc.
    step_in HR. rewrite Hv in HR.
    destruct (returncode (fst (subprocess_run E (verify_cmd p b) w)) =? 0)%Z eqn:Hver.
    + (* the name resolves: checkout *)
      crunch HR; finish_case.
    + (* a new branch *)
      crunch HR. rewrite Hs in HR.
      destruct base as [b0|].
      * destruct (truthy b0 && negb (nonempty (status_lines_of (fst (subprocess_run E (status_cmd p) w)))))
          eqn:Hb; cbv beta iota in HR.
        -- crunch HR; finish_case.
        -- crunch HR; finish_case.
      * crunch HR; finish_case.
Qed.

Ltac split_if H :=
  match type of H with
  | context [if ?c then _ else _] =>
      lazymatch c with
      | true => fail
      | false => fail
      | _ => let E := fresh "Ec" in destruct c eqn:E; cbv beta iota in H
      end
  end.

Ltac crunch_all H :=
  repeat first [ step_in H | rewrite bind_assoc_at in H | rewrite bind_ret_at in H
               | rewrite bind_okfun_at in H | split_if H
               | progress unfold ret in H | progress unfold raise in H ].

Ltac rc_facts :=
  repeat match goal with
  | H : negb (returncode ?x =? 0)%Z = false |- _ => apply negb_false_iff, Z.eqb_eq in H
  | H : negb (returncode ?x =? 0)%Z = true |- _ => apply negb_true_iff, Z.eqb_neq in H
  end.

Ltac finish_errors :=
  match goal with H : ?R = _ |- _ => subst R end;
  cbn [fst snd trace world];
  eexists; split; [rewrite <- ?app_assoc; reflexivity|];
  rc_facts; simpl;
  first
    [ intros c r Hin Hc;
      repeat (destruct Hin as [Hin|Hin]; [inversion Hin; subst; simpl in Hc;
              first [discriminate | assumption] |]);
      destruct Hin
    | do 3 eexists; split; [reflexivity|];
      split; [reflexivity|]; split; [assumption|]; split; [reflexivity|];
      intros c r Hin Hc;
      repeat (destruct Hin as [Hin|Hin]; [inversion Hin; subst; simpl in Hc;
              first [discriminate | assumption] |]);
      destruct Hin ].

(** C3 (as corrected): in [ensure_branch] the commands run with checking,
    the [checkout] forms, abort the call on failure: the call raises
    [WorkflowError] carrying the command's diagnostic text
    ([stderr.strip()] or else [stdout.strip()]), the failing command is the
    last one run and nothing is undone; the call succeeds only when every
    [checkout] it ran succeeded.  The queries and the [fetch] and [pull] of
    the base run unchecked, so their failures do not raise. *)
Theorem ensure_branch_errors (p b remote : string) (base : option string) (force : bool)
  (s : St W) :
  exists evs, trace (snd (ensure_branch E p b base remote force s)) = trace s ++ evs /\
  match fst (ensure_branch E p b base remote force s) with
  | Ok _ => forall c r, In (c, r) (exec_results evs) -> is_checkout c = true -> returncode r = 0%Z
  | Raise e =>
      exists c r older, rev (exec_results evs) = (c, r) :: older /\ is_checkout c = true
        /\ returncode r <> 0%Z /\ e = WorkflowError (diagnostic r)
        /\ forall c' r', In (c', r') older -> is_checkout c' = true -> returncode r' = 0%Z
  end.
Proof.
  destruct s as [w tr d].
  remember (ensure_branch E p b base remote force (mk_st w tr d)) as R eqn:HR.
  unfold ensure_branch in HR.
  destruct base as [b0|]; destruct d; crunch_all HR.
  all: finish_errors.
Qed.

Lemma ensure_branch_lands (p b remote : string) (base : option string) (force : bool)
  (s s1 : St W)
  (Hq : queries_read_only E (world s) p b)
  (Hco : returncode (fst (subprocess_run E (checkout_cmd p b) (world s))) = 0%Z ->
         current_obs E (snd (subprocess_run E (checkout_cmd p b) (world s))) p = Some b)
  (Hcr : forall w, returncode (fst (subprocess_run E (create_cmd p force b) w)) = 0%Z ->
         current_obs E (snd (subprocess_run E (create_cmd p force b) w)) p = Some b)
  (Hfirst : ensure_branch E p b base remote force s = (Ok b, s1)) :
  current_obs E (world s1) p = Some b.
Proof.
  destruct Hq as (Ha & Hv & Hs).
  destruct s as [w tr d]; cbn [world] in *.
  remember (ensure_branch E p b base remote force (mk_st w tr d)) as R eqn:HR.
  unfold ensure_branch in HR.
  destruct base as [b0|]; destruct d; crunch_all HR; subst R; inversion Hfirst; subst s1;
    cbn [world]; rc_facts; repeat rewrite ?Ha, ?Hv, ?Hs in *;
    first [ apply Hcr; assumption | apply Hco; assumption | apply opt_eqb_some; assumption ].
Qed.

(** C10 (as corrected): [ensure_branch] is idempotent when its checkouts
    land on the branch.  Suppose the queries of the first call are
    read-only, checking out [b] (when it succeeds) makes [b] the current
    branch, and so does creating it.  Then after a successful first call,
    a second call with the same arguments returns [b] having run only the
    ref query of the current branch: no checkout, fetch, pull or creation.
    (When [b] names a tag rather than a branch, the checkout detaches HEAD
    and the second call checks it out again.) *)
Theorem ensure_branch_idempotent (p b remote : string) (base : option string) (force : bool)
  (s s1 : St W)
  (Hq : queries_read_only E (world s) p b)
  (Hco : returncode (fst (subprocess_run E (checkout_cmd p b) (world s))) = 0%Z ->
         current_obs E (snd (subprocess_run E (checkout_cmd p b) (world s))) p = Some b)
  (Hcr : forall w, returncode (fst (subprocess_run E (create_cmd p force b) w)) = 0%Z ->
         current_obs E (snd (subprocess_run E (create_cmd p force b) w)) p = Some b)
  (Hfirst : ensure_branch E p b base remote force s = (Ok b, s1)) :
  ensure_branch E p b base remote force s1 =
  (Ok b, mk_st (snd (subprocess_run E (abbrev_cmd p) (world s1)))
           (trace s1 ++ dbg_evs (DEBUG s1) ("Executing: " +++ join " " (abbrev_cmd p))
              ++ [Exec (abbrev_cmd p) (fst (subprocess_run E (abbrev_cmd p) (world s1)))])
           (DEBUG s1)).
Proof.
  pose proof (ensure_branch_lands p b remote base force s s1 Hq Hco Hcr Hfirst) as Hcur.
  unfold ensure_branch.
  rewrite (bind_step _ _ _ _ _ (get_current_branch_exact p s1)).
  rewrite Hcur. cbn [opt_eqb]. rewrite String.eqb_refl. reflexivity.
Qed.

End Branching.

Section MergeRequests.
Context {W : Type} (E : Env W).



End MergeRequests.

Section Segments.
Context {W : Type} (E : Env W).

Lemma bind_ret_l {A B} (a : A) (k : A -> M W B) : bind (ret a) k = k a.
Proof. reflexivity. Qed.

Lemma bind_raise_l {A B} (e : exn) (k : A -> M W B) : bind (raise e) k = raise e.
Proof. reflexivity. Qed.

Lemma runs_only_ret {A} (P : list string -> Prop) (a : A) : runs_only P (@ret W A a).
Proof. intros s. exists []. rewrite app_nil_r. split; [reflexivity | constructor]. Qed.

Lemma runs_only_raise {A} (P : list string -> Prop) (e : exn) : runs_only P (@raise W A e).
Proof. intros s. exists []. rewrite app_nil_r. split; [reflexivity | constructor]. Qed.

Lemma runs_only_emit (P : list string -> Prop) (ev : event) :
  (forall c r, ev = Exec c r -> P c) -> runs_only P (@emit W ev).
Proof.
  intros H s. exists [ev]. split; [reflexivity|].
  destruct ev as [c r| | | |]; simpl; repeat constructor. apply (H c r eq_refl).
Qed.

Lemma runs_only_print_out (P : list string -> Prop) (l : string) : runs_only P (@print_out W l).
Proof. apply runs_only_emit. discriminate. Qed.

Lemma runs_only_print_err (P : list string -> Prop) (l : string) : runs_only P (@print_err W l).
Proof. apply runs_only_emit. discriminate. Qed.

Lemma runs_only_read_world {A} (P : list string -> Prop) (f : W -> A) : runs_only P (read_world f).
Proof. intros s. exists []. rewrite app_nil_r. split; [reflexivity | constructor]. Qed.

Lemma runs_only_debug (P : list string -> Prop) (msg : string) : runs_only P (@debug W msg).
Proof.
  intros s. rewrite debug_exact. exists (dbg_evs (DEBUG s) msg).
  split; [reflexivity|]. rewrite execs_dbg. constructor.
Qed.

Lemma runs_only_exec (P : list string -> Prop) (cmd : list string) :
  P cmd -> runs_only P (exec E cmd).
Proof.
  intros H s. unfold exec. destruct (subprocess_run E cmd (world s)) as [r w'].
  exists [Exec cmd r]. split; [reflexivity|]. simpl. repeat constructor. exact H.
Qed.

Lemma runs_only_exec_inherit (P : list string -> Prop) (cmd : list string) :
  P cmd -> runs_only P (exec_inherit E cmd).
Proof.
  intros H s. unfold exec_inherit. destruct (subprocess_run E cmd (world s)) as [r w'].
  exists [Exec cmd r; ChildOut (stdout r); ChildErr (stderr r)].
  split; [reflexivity|]. simpl. repeat constructor. exact H.
Qed.

Lemma runs_only_run_git (P : list string -> Prop) (p : string) (args : list string) (check : bool) :
  P (git_cmd p args) -> runs_only P (run_git E p args check).
Proof.
  intros H s. rewrite run_git_exact.
  exists (dbg_evs (DEBUG s) ("Executing: " +++ join " " (git_cmd p args))
          ++ [Exec (git_cmd p args) (fst (subprocess_run E (git_cmd p args) (world s)))]).
  split.
  - destruct (_ && _); reflexivity.
  - rewrite execs_app, execs_dbg. simpl. repeat constructor. exact H.
Qed.

Lemma runs_only_bind {A B} (P : list string -> Prop) (c : M W A) (k : A -> M W B) :
  runs_only P c -> (forall a, runs_only P (k a)) -> runs_only P (bind c k).
Proof.
  intros Hc Hk s. destruct (Hc s) as [e1 [T1 F1]]. unfold bind.
  destruct (c s) as [[a|e] s1] eqn:Ecs; simpl in T1 |- *.
  - destruct (Hk a s1) as [e2 [T2 F2]]. exists (e1 ++ e2).
    rewrite T2, T1, app_assoc. split; [reflexivity|].
    rewrite execs_app. apply Forall_app. split; assumption.
  - exists e1. split; assumption.
Qed.

Lemma runs_only_weaken {A} (P Q : list string -> Prop) (c : M W A) :
  (forall x, P x -> Q x) -> runs_only P c -> runs_only Q c.
Proof.
  intros HPQ H s. destruct (H s) as [evs [T F]]. exists evs.
  split; [exact T|]. eapply Forall_impl; eassumption.
Qed.

Lemma runs_only_get_current_branch (P : list string -> Prop) (p : string) :
  P (abbrev_cmd p) -> runs_only P (get_current_branch E p).
Proof.
  intros H. unfold get_current_branch. apply runs_only_bind.
  - apply runs_only_run_git. exact H.
  - intros r. destruct (negb _); [apply runs_only_ret|apply runs_only_ret].
Qed.

Lemma runs_only_git_status_lines (P : list string -> Prop) (p : string) :
  P (status_cmd p) -> runs_only P (git_status_lines E p).
Proof.
  intros H. unfold git_status_lines. apply runs_only_bind.
  - apply runs_only_run_git. exact H.
  - intros r. destruct (negb _); [apply runs_only_ret|apply runs_only_ret].
Qed.

Lemma runs_only_for_each {A} (P : list string -> Prop) (xs : list A) (body : A -> M W unit) :
  (forall x, In x xs -> runs_only P (body x)) -> runs_only P (for_each xs body).
Proof.
  induction xs as [|x rest IH]; intros H; simpl.
  - apply runs_only_ret.
  - apply runs_only_bind; [apply H; left; reflexivity|].
    intros _. apply IH. intros y Hy. apply H. right. exact Hy.
Qed.

Lemma seg_silent {A} (R : Submodule -> list string -> Prop) (xs : list Submodule) (c : M W A) :
  runs_only (fun _ => False) c -> seg_only R xs c.
Proof.
  intros H s. destruct (H s) as [evs [T F]]. exists evs, [].
  split; [exact T|]. split; [|constructor].
  destruct (execs evs) as [|c0 l]; [reflexivity|]. inversion F as [|? ? Hf]; contradiction.
Qed.

Lemma seg_of_runs {A} (R : Submodule -> list string -> Prop) (xs : list Submodule) (x : Submodule)
    (c : M W A) :
  In x xs -> runs_only (R x) c -> seg_only R xs c.
Proof.
  intros Hx H s. destruct (H s) as [evs [T F]]. exists evs, [(x, evs)].
  split; [exact T|]. simpl. rewrite app_nil_r. split; [reflexivity|].
  repeat constructor; assumption.
Qed.

Lemma seg_bind {A B} (R : Submodule -> list string -> Prop) (xs : list Submodule) (c : M W A)
    (k : A -> M W B) :
  seg_only R xs c -> (forall a, seg_only R xs (k a)) -> seg_only R xs (bind c k).
Proof.
  intros Hc Hk s. destruct (Hc s) as [e1 [g1 [T1 [X1 F1]]]]. unfold bind.
  destruct (c s) as [[a|e] s1] eqn:Ecs; simpl in T1 |- *.
  - destruct (Hk a s1) as [e2 [g2 [T2 [X2 F2]]]]. exists (e1 ++ e2), (g1 ++ g2).
    rewrite T2, T1, app_assoc. split; [reflexivity|]. split.
    + rewrite execs_app, X1, X2, map_app, concat_app, execs_app. reflexivity.
    + apply Forall_app. split; assumption.
  - exists e1, g1. split; [|split]; assumption.
Qed.

Lemma seg_for_each {A} (R : Submodule -> list string -> Prop) (xs : list Submodule) (ys : list A)
    (body : A -> M W unit) :
  (forall y, In y ys -> seg_only R xs (body y)) -> seg_only R xs (for_each ys body).
Proof.
  induction ys as [|y rest IH]; intros H; simpl.
  - apply seg_silent, runs_only_ret.
  - apply seg_bind; [apply H; left; reflexivity|].
    intros _. apply IH. intros z Hz. apply H. right. exact Hz.
Qed.

(** The status scan runs exactly one status query per entry, in order. *)
Lemma changed_loop_trace (include_clean : bool) :
  forall subs dirty s, exists evs,
    trace (snd (changed_loop E subs include_clean dirty s)) = trace s ++ evs
    /\ execs evs = map (fun m => status_cmd (path m)) subs.
Proof.
  induction subs as [|m rest IH]; intros dirty s.
  - exists []. rewrite app_nil_r. split; reflexivity.
  - cbn [changed_loop]. rewrite (bind_step _ _ _ _ _ (git_status_lines_exact E (path m) s)).
    set (s1 := mk_st _ _ _).
    set (lines := status_lines_of _).
    assert (Hd : exists evd s2, (if nonempty lines || include_clean
        then debug ("Submodule " +++ name m +++ " status: " +++ py_repr_list lines) else ret tt) s1
        = (Ok tt, s2) /\ trace s2 = trace s1 ++ evd /\ execs evd = []).
    { destruct (nonempty lines || include_clean).
      - rewrite debug_exact. do 2 eexists. split; [reflexivity|].
        split; [reflexivity|]. apply execs_dbg.
      - exists [], s1. rewrite app_nil_r. split; [reflexivity|split; reflexivity]. }
    destruct Hd as (evd & s2 & Hs2 & T2 & X2).
    rewrite (bind_step _ _ _ _ _ Hs2).
    destruct (IH (if nonempty lines then dirty ++ [m] else dirty) s2) as [evs [T X]].
    rewrite T, T2. unfold s1 at 1; cbn [trace].
    eexists. split.
    + rewrite <- !app_assoc. reflexivity.
    + rewrite !execs_app, X2, X, execs_dbg. reflexivity.
Qed.

Ltac ro_tac :=
  repeat match goal with
  | |- runs_only _ (bind _ _) => apply runs_only_bind; [|intro; cbv beta]
  | |- runs_only _ (ret _) => apply runs_only_ret
  | |- runs_only _ (raise _) => apply runs_only_raise
  | |- runs_only _ (debug _) => apply runs_only_debug
  | |- runs_only _ (print_out _) => apply runs_only_print_out
  | |- runs_only _ (print_err _) => apply runs_only_print_err
  | |- runs_only _ (read_world _) => apply runs_only_read_world
  | |- runs_only _ (run_git _ _ _ _) => apply runs_only_run_git
  | |- runs_only _ (exec _ _) => apply runs_only_exec
  | |- runs_only _ (exec_inherit _ _) => apply runs_only_exec_inherit
  | |- runs_only _ (get_current_branch _ _) => apply runs_only_get_current_branch
  | |- runs_only _ (git_status_lines _ _) => apply runs_only_git_status_lines
  | |- runs_only _ (for_each _ _) => apply runs_only_for_each; intros ? ?
  | |- runs_only _ (if ?b then _ else _) => destruct b
  | |- runs_only _ (match ?x with _ => _ end) => destruct x
  | |- runs_only _ (let _ := _ in _) => cbv zeta
  end.

Lemma ensure_branch_in_repo (p b : string) (base : option string) (remote : string) (force : bool) :
  runs_only (fun c => exists args, c = git_cmd p args) (ensure_branch E p b base remote force).
Proof. unfold ensure_branch. ro_tac; eexists; reflexivity. Qed.

Lemma mr_command_head (t b target : string) (title : option string) (draft : bool) :
  exists args, mr_command t b target title draft = "glab" :: args
               \/ mr_command t b target title draft = "gh" :: args.
Proof. unfold mr_command. destruct (String.eqb t "glab"); eexists; [left|right]; reflexivity. Qed.

Lemma push_one_concerns (root remote : string) (up : bool) (m : Submodule) :
  runs_only (concerns root m) (push_one E remote up m).
Proof.
  unfold push_one, push_branch. ro_tac; left; eexists; reflexivity.
Qed.

Lemma mr_one_concerns (root target : string) (title : option string) (draft : bool) (m : Submodule) :
  runs_only (concerns root m) (mr_one E target title draft m).
Proof.
  unfold mr_one, create_merge_request. ro_tac;
    first [ left; eexists; reflexivity
          | right; right; apply mr_command_head ].
Qed.

Lemma stage_one_concerns (root : string) (m : Submodule) :
  runs_only (concerns root m)
    (rel <- relative_path m root ;; run_git E root ["add"; rel] true ;; ret tt).
Proof.
  unfold relative_path. destruct (relative_to (path m) root) as [rel|] eqn:Hr.
  - rewrite bind_ret_l. ro_tac. right; left. exists rel. split; [exact Hr|reflexivity].
  - rewrite bind_raise_l. apply runs_only_raise.
Qed.

Lemma staged_report_silent (root : string) (m : Submodule) :
  runs_only (W:=W) (fun _ => False)
    (relative <- relative_path m root ;;
     print_out ("Staged updated hash for " +++ name m +++ " (" +++ relative +++ ")."))%string.
Proof. unfold relative_path. ro_tac. Qed.

(** A handler that scans [targets] and then runs [k] on the dirty ones. *)
Lemma scan_then (R : Submodule -> list string -> Prop) (targets : list Submodule)
    (k : list Submodule -> M W unit) (s : St W) :
  status_read_only E (world s) targets ->
  seg_only R (filter (status_dirty E (world s)) targets) (k (filter (status_dirty E (world s)) targets)) ->
  exists scan ops segs,
    trace (snd ((modules <- changed_submodules E targets false ;; k modules) s))
      = trace s ++ scan ++ ops
    /\ execs scan = map (fun m => status_cmd (path m)) targets
    /\ execs ops = execs (concat (map snd segs))
    /\ Forall (fun sg => In (fst sg) (filter (status_dirty E (world s)) targets)
                         /\ Forall (R (fst sg)) (execs (snd sg))) segs.
Proof.
  intros Hro Hk.
  destruct (changed_loop_eq E false targets [] s Hro) as [H1 H2].
  destruct (changed_loop_trace false targets [] s) as [scan [T1 X1]].
  unfold changed_submodules. unfold bind.
  destruct (changed_loop E targets false [] s) as [o s1] eqn:Ec.
  simpl in H1, H2, T1. subst o.
  destruct (Hk s1) as [ops [segs [T2 [X2 F2]]]].
  exists scan, ops, segs. rewrite T2, T1, <- app_assoc.
  auto.
Qed.

(** C5: every subcommand other than [status] first queries the status of
    each target, in order, and then runs commands only in segments, each
    belonging to a target that this scan classified dirty, and each made of
    commands about that target (git inside it, staging it in the parent, or
    the review tool).  A clean target, named explicitly or not, gets no
    segment: it is never branched, pushed, MR'd or staged. *)
Theorem dispatch_dirty_only (root : string) (targets : list Submodule) (args : Namespace)
    (s : St W)
    (Hro : status_read_only E (world s) targets) (Hcmd : command args <> CmdStatus) :
  exists scan ops segs,
    trace (snd (dispatch E root targets args s)) = trace s ++ scan ++ ops
    /\ execs scan = map (fun m => status_cmd (path m)) targets
    /\ execs ops = execs (concat (map snd segs))
    /\ Forall (fun sg => In (fst sg) (filter (status_dirty E (world s)) targets)
                         /\ Forall (concerns root (fst sg)) (execs (snd sg))) segs.
Proof.
  unfold dispatch. destruct (command args) as [|bn base remote force|remote up|tg ti dr|];
    [contradiction| | | |];
    [unfold handle_branch|unfold handle_push|unfold handle_mr|unfold handle_update_parent];
    apply scan_then; try exact Hro; cbv beta;
    destruct (negb _); try (apply seg_silent; ro_tac; fail).
  - apply seg_for_each. intros m Hm. apply (seg_of_runs _ _ m); [exact Hm|].
    apply runs_only_bind.
    + eapply runs_only_weaken; [|apply ensure_branch_in_repo].
      intros c Hc. left. exact Hc.
    + intros b. apply runs_only_print_out.
  - apply seg_for_each. intros m Hm. apply (seg_of_runs _ _ m); [exact Hm|].
    apply push_one_concerns.
  - apply seg_for_each. intros m Hm. apply (seg_of_runs _ _ m); [exact Hm|].
    apply mr_one_concerns.
  - apply seg_bind.
    + unfold update_parent. apply seg_for_each. intros m Hm.
      apply (seg_of_runs _ _ m); [exact Hm|]. apply stage_one_concerns.
    + intros _. apply seg_for_each. intros m Hm. apply seg_silent, staged_report_silent.
Qed.

End Segments.

Section MainRun.
Context {W : Type} (E : Env W).

Lemma ensure_repo_exact (p : string) (s : St W) :
  ensure_repo E p s =
  (if path_exists E (path_join (path_resolve E p (world s)) ".gitmodules") (world s)
   then Ok (path_resolve E p (world s))
   else Raise (WorkflowError ("Expected to find a .gitmodules file in " +++ path_resolve E p (world s)
                              +++ "; is this the ape repository?")), s).
Proof.
  unfold ensure_repo, read_world, bind, ret, raise; simpl.
  destruct (path_exists E _ _); reflexivity.
Qed.

Lemma load_submodules_exact (root : string) (s : St W) :
  load_submodules E root s =
  (match read_gitmodules E (path_join root ".gitmodules") (world s) with
   | None => Raise (OtherError "configparser.Error" (path_join root ".gitmodules"))
   | Some sections => Ok (load_loop root sections [])
   end, s).
Proof.
  unfold load_submodules, read_world, bind, ret, raise; simpl.
  destruct (read_gitmodules E _ _); reflexivity.
Qed.

Lemma resolve_targets_pure (root : string) (subs : list Submodule) (names : option (list string))
  (s : St W) : snd (resolve_targets root subs names s) = s.
Proof.
  unfold resolve_targets, ret, raise.
  destruct names as [[|n ns]|]; try reflexivity.
  destruct (nonempty _); reflexivity.
Qed.

(** C9: with a manifest that yields no submodule entries, every subcommand
    prints the no-submodules report, exits with 0, runs no external command
    and leaves the world as it was. *)
Theorem main_no_submodules (args : Namespace) (s : St W) (sections : list (string * option string))
  (Hex : path_exists E (path_join (path_resolve E (repo_root args) (world s)) ".gitmodules") (world s) = true)
  (Hparse : read_gitmodules E (path_join (path_resolve E (repo_root args) (world s)) ".gitmodules")
              (world s) = Some sections)
  (Hempty : load_loop (path_resolve E (repo_root args) (world s)) sections [] = []) :
  main E args s =
  (Ok 0%Z, mk_st (world s) (trace s ++ [Out "No submodules registered in .gitmodules."]) (verbose args)).
Proof.
  unfold main, main_body, catch_workflow, set_debug.
  unfold bind at 1. cbv beta iota.
  unfold bind at 1. rewrite ensure_repo_exact. cbn [world]. rewrite Hex. cbv beta iota.
  unfold bind at 1. rewrite load_submodules_exact. cbn [world]. rewrite Hparse, Hempty.
  reflexivity.
Qed.

(** C4 (as corrected): with a non-empty registry, an explicit target list
    naming an unknown submodule makes the run print the error naming the
    unknown names and exit with 1, before any external command is run and
    without changing the world. *)
Theorem main_unknown_targets (args : Namespace) (s : St W) (sections : list (string * option string))
  (names : list string)
  (Hex : path_exists E (path_join (path_resolve E (repo_root args) (world s)) ".gitmodules") (world s) = true)
  (Hparse : read_gitmodules E (path_join (path_resolve E (repo_root args) (world s)) ".gitmodules")
              (world s) = Some sections)
  (Hnonempty : load_loop (path_resolve E (repo_root args) (world s)) sections [] <> [])
  (Hnames : modules args = Some names)
  (Hunknown : exists n, In n names /\
     name_map_get (load_loop (path_resolve E (repo_root args) (world s)) sections []) n = None) :
  main E args s =
  (Ok 1%Z, mk_st (world s)
     (trace s ++ [ErrOut ("Error: Unknown submodule(s): " +++ join ", "
        (missing_names (load_loop (path_resolve E (repo_root args) (world s)) sections []) names))])
     (verbose args)).
Proof.
  unfold main, main_body, catch_workflow, set_debug.
  unfold bind at 1. cbv beta iota.
  unfold bind at 1. rewrite ensure_repo_exact. cbn [world]. rewrite Hex. cbv beta iota.
  unfold bind at 1. rewrite load_submodules_exact. cbn [world]. rewrite Hparse.
  cbv beta iota.
  destruct (load_loop _ sections []) as [|m ms] eqn:Hl; [contradiction|].
  cbn [nonempty negb].
  destruct Hunknown as [n [Hin Hn]].
  assert (Hmiss : nonempty (missing_names (m :: ms) names) = true).
  { unfold missing_names. rewrite nonempty_filter. apply existsb_exists.
    exists n. split; [exact Hin|]. rewrite Hn. reflexivity. }
  unfold bind at 1. unfold resolve_targets. rewrite Hnames.
  destruct names as [|n0 ns]; [destruct Hin|].
  unfold missing_names in Hmiss. rewrite Hmiss.
  reflexivity.
Qed.

Lemma main_body_ok_zero (args : Namespace) (s : St W) (z : Z) :
  fst (main_body E args s) = Ok z -> z = 0%Z.
Proof.
  unfold main_body, bind, ret.
  destruct (ensure_repo E (repo_root args) s) as [[root|e] s1]; [|discriminate].
  destruct (load_submodules E root s1) as [[subs|e] s2]; [|discriminate].
  destruct (negb (nonempty subs)).
  - unfold print_out, emit. simpl. congruence.
  - destruct (resolve_targets root subs (modules args) s2) as [[ts|e] s3]; [|discriminate].
    destruct (dispatch E root ts args s3) as [[u|e] s4]; simpl; congruence.
Qed.

Lemma resolve_targets_state (root : string) (subs : list Submodule) (names : option (list string))
  (s s' : St W) :
  resolve_targets root subs names s = (fst (resolve_targets root subs names s'), s).
Proof.
  unfold resolve_targets, ret, raise.
  destruct names as [[|n ns]|]; try reflexivity.
  destruct (nonempty _); reflexivity.
Qed.

Lemma bind_ext_at {A B} (c c' : M W A) (k : A -> M W B) (s : St W) :
  c s = c' s -> bind c k s = bind c' k s.
Proof. intros H. unfold bind. rewrite H. reflexivity. Qed.

Lemma bind_cont_ext {A B} (c : M W A) (k k' : A -> M W B) (s : St W) :
  (forall a s1, k a s1 = k' a s1) -> bind c k s = bind c k' s.
Proof. intros H. unfold bind. destruct (c s) as [[a|e] s1]; [apply H|reflexivity]. Qed.

Lemma bind_raise_step {A B} (c : M W A) (k : A -> M W B) (s s1 : St W) (e : exn) :
  c s = (Raise e, s1) -> bind c k s = (Raise e, s1).
Proof. intros H. unfold bind. rewrite H. reflexivity. Qed.

Lemma for_each_app_at {A} (xs ys : list A) (body : A -> M W unit) (s : St W) :
  for_each (xs ++ ys) body s = bind (for_each xs body) (fun _ => for_each ys body) s.
Proof.
  revert s. induction xs as [|x rest IH]; intros s; [reflexivity|].
  cbn [app for_each]. rewrite bind_assoc_at.
  apply bind_cont_ext. intros u s1. apply IH.
Qed.

Lemma push_one_detached (remote : string) (up : bool) (m : Submodule) (s : St W) :
  opt_truthy (current_obs E (world s) (path m)) = false ->
  push_one E remote up m s =
  (Raise (WorkflowError ("Submodule " +++ name m
            +++ " is in a detached HEAD state; cannot push without a branch.")),
   mk_st (snd (subprocess_run E (abbrev_cmd (path m)) (world s)))
     (trace s ++ dbg_evs (DEBUG s) ("Executing: " +++ join " " (abbrev_cmd (path m)))
        ++ [Exec (abbrev_cmd (path m)) (fst (subprocess_run E (abbrev_cmd (path m)) (world s)))])
     (DEBUG s)).
Proof.
  intros H. unfold push_one.
  rewrite (bind_step _ _ _ _ _ (get_current_branch_exact E (path m) s)).
  destruct (current_obs E (world s) (path m)) as [b|]; simpl in H; [rewrite H|]; reflexivity.
Qed.

(** C6: [push] stops at the first target with a detached HEAD.  Say the
    scan classifies [pre ++ m :: post] dirty, the targets of [pre] are
    pushed, and then the ref query of [m] reports no branch.  The run then
    ends with [Error: Submodule <m> is in a detached HEAD state; ...] on
    stderr and exit code 1, and after [pre] the only command it runs is that
    ref query: nothing is pushed for [m] or for any target of [post]. *)
Theorem push_detached_aborts (args : Namespace) (s : St W) (sections : list (string * option string))
  (targets pre post : list Submodule) (m : Submodule) (remote : string) (up : bool) (s1 : St W)
  (Hex : path_exists E (path_join (path_resolve E (repo_root args) (world s)) ".gitmodules") (world s) = true)
  (Hparse : read_gitmodules E (path_join (path_resolve E (repo_root args) (world s)) ".gitmodules")
              (world s) = Some sections)
  (Hnonempty : load_loop (path_resolve E (repo_root args) (world s)) sections [] <> [])
  (Hres : fst (resolve_targets (path_resolve E (repo_root args) (world s))
                 (load_loop (path_resolve E (repo_root args) (world s)) sections [])
                 (modules args) s) = Ok targets)
  (Hcmd : command args = CmdPush remote up)
  (Hro : status_read_only E (world s) targets)
  (Hdirty : filter (status_dirty E (world s)) targets = pre ++ m :: post)
  (Hpre : for_each pre (push_one E remote up)
            (snd (changed_submodules E targets false (mk_st (world s) (trace s) (verbose args))))
          = (Ok tt, s1))
  (Hdet : opt_truthy (current_obs E (world s1) (path m)) = false) :
  exists evs,
    main E args s =
    (Ok 1%Z, mk_st (snd (subprocess_run E (abbrev_cmd (path m)) (world s1)))
       (trace s1 ++ evs ++ [ErrOut ("Error: Submodule " +++ name m
          +++ " is in a detached HEAD state; cannot push without a branch.")])
       (DEBUG s1))
    /\ execs evs = [abbrev_cmd (path m)].
Proof.
  set (s' := mk_st (world s) (trace s) (verbose args)) in Hpre.
  assert (Hc1 : fst (changed_submodules E targets false s') = Ok (pre ++ m :: post)).
  { rewrite <- Hdirty. exact (proj1 (changed_loop_eq E false targets [] s' Hro)). }
  unfold main, main_body, catch_workflow, set_debug.
  unfold bind at 1. cbv beta iota.
  unfold bind at 1. rewrite ensure_repo_exact. cbn [world]. rewrite Hex. cbv beta iota.
  unfold bind at 1. rewrite load_submodules_exact. cbn [world]. rewrite Hparse.
  cbv beta iota.
  destruct (load_loop _ sections []) as [|m0 ms] eqn:Hl; [contradiction|].
  cbn [nonempty negb].
  fold s'.
  pose proof (resolve_targets_state (path_resolve E (repo_root args) (world s)) (m0 :: ms)
                (modules args) s' s) as Hr.
  rewrite Hres in Hr.
  rewrite (bind_step _ _ _ _ _ Hr). cbv beta.
  unfold dispatch. rewrite Hcmd. unfold handle_push. rewrite bind_assoc_at.
  destruct (changed_submodules E targets false s') as [o s0] eqn:Hc.
  simpl in Hc1, Hpre. subst o.
  rewrite (bind_step _ _ _ _ _ Hc). cbv beta.
  replace (nonempty (pre ++ m :: post)) with true by (destruct pre; reflexivity).
  cbn [negb].
  rewrite (bind_ext_at _ _ _ _ (for_each_app_at pre (m :: post) _ s0)).
  rewrite bind_assoc_at. rewrite (bind_step _ _ _ _ _ Hpre). cbv beta.
  cbn [for_each]. rewrite bind_assoc_at.
  rewrite (bind_raise_step _ _ _ _ _ (push_one_detached remote up m s1 Hdet)).
  exists (dbg_evs (DEBUG s1) ("Executing: " +++ join " " (abbrev_cmd (path m)))
          ++ [Exec (abbrev_cmd (path m)) (fst (subprocess_run E (abbrev_cmd (path m)) (world s1)))]).
  split.
  - unfold bind, print_err, emit, ret. cbn [world trace DEBUG].
    rewrite <- !app_assoc. reflexivity.
  - rewrite execs_app, execs_dbg. reflexivity.
Qed.
(** C8 (as corrected): the exit status of [main] is decided by its body.
    When the body completes, [main] returns 0; when it raises
    [WorkflowError msg], [main] prints [Error: msg] to stderr and returns 1;
    any other exception propagates out of [main] unchanged. *)
Theorem main_exit_codes (args : Namespace) (s : St W) :
  match main_body E args (mk_st (world s) (trace s) (verbose args)) with
  | (Ok z, s') => z = 0%Z /\ main E args s = (Ok 0%Z, s')
  | (Raise (WorkflowError msg), s') =>
      main E args s = (Ok 1%Z, mk_st (world s') (trace s' ++ [ErrOut ("Error: " +++ msg)]) (DEBUG s'))
  | (Raise (OtherError k m), s') => main E args s = (Raise (OtherError k m), s')
  end.
Proof.
  pose proof (main_body_ok_zero args (mk_st (world s) (trace s) (verbose args))) as Hz.
  unfold main, catch_workflow, set_debug, bind. cbv beta iota. cbn [world trace DEBUG].
  destruct (main_body E args (mk_st (world s) (trace s) (verbose args))) as [[z|[msg|k m]] s'];
    simpl in Hz.
  - specialize (Hz z eq_refl). subst z. split; reflexivity.
  - reflexivity.
  - reflexivity.
Qed.

End MainRun.

(** ** Further properties of the script *)

Section Registry.

Lemma name_map_get_snoc (subs : list Submodule) (m : Submodule) (n : string) :
  name_map_get (subs ++ [m]) n = if String.eqb (name m) n then Some m else name_map_get subs n.
Proof. unfold name_map_get. rewrite fold_left_app. reflexivity. Qed.

Lemma name_map_get_some (subs : list Submodule) (n : string) (m : Submodule) :
  name_map_get subs n = Some m -> name m = n /\ In m subs.
Proof.
  induction subs as [|x l IH] using rev_ind; [discriminate|].
  rewrite name_map_get_snoc. destruct (String.eqb (name x) n) eqn:Hx.
  - intros H. inversion H; subst. apply String.eqb_eq in Hx.
    split; [exact Hx|]. apply in_or_app. right. left. reflexivity.
  - intros H. destruct (IH H) as [Hn Hin]. split; [exact Hn|]. apply in_or_app. left. exact Hin.
Qed.

(** [{m.name: m for m in submodules}]: a name maps to the last entry with
    that name, and is missing exactly when no entry has it. *)
Theorem name_map_get_last (subs : list Submodule) (n : string) :
  (forall m, name_map_get subs n = Some m <->
     exists pre post, subs = pre ++ m :: post /\ name m = n /\ Forall (fun m' => name m' <> n) post)
  /\ (name_map_get subs n = None <-> Forall (fun m => name m <> n) subs).
Proof.
  induction subs as [|x l IH] using rev_ind.
  - split.
    + intros m. split; [discriminate|].
      intros (pre & post & Heq & _). destruct pre; discriminate.
    + split; [constructor | reflexivity].
  - rewrite !name_map_get_snoc. destruct IH as [IH1 IH2].
    destruct (String.eqb (name x) n) eqn:Hx.
    + apply String.eqb_eq in Hx. split.
      * intros m. split.
        -- intros H. inversion H; subst. exists l, []. repeat split; auto.
        -- intros (pre & post & Heq & Hn & Hf).
           destruct post as [|y post' _] using rev_ind.
           ++ apply app_inj_tail in Heq as [_ ->]. reflexivity.
           ++ rewrite app_comm_cons, app_assoc in Heq.
              apply app_inj_tail in Heq as [_ ->].
              apply Forall_app in Hf as [_ Hf]. inversion Hf; contradiction.
      * split; [discriminate|].
        intros Hf. apply Forall_app in Hf as [_ Hf]. inversion Hf; contradiction.
    + apply String.eqb_neq in Hx. split.
      * intros m. rewrite IH1. split.
        -- intros (pre & post & Heq & Hn & Hf). exists pre, (post ++ [x]).
           subst l. split; [rewrite <- app_assoc; reflexivity|].
           split; [exact Hn|]. apply Forall_app. split; [exact Hf|]. constructor; [exact Hx|constructor].
        -- intros (pre & post & Heq & Hn & Hf).
           destruct post as [|y post' _] using rev_ind.
           ++ apply app_inj_tail in Heq as [_ ->]. contradiction.
           ++ rewrite app_comm_cons, app_assoc in Heq.
              apply app_inj_tail in Heq as [-> ->].
              apply Forall_app in Hf as [Hf _]. exists pre, post'. auto.
      * rewrite IH2. split; intros H.
        -- apply Forall_app. split; [exact H|]. constructor; [exact Hx|constructor].
        -- apply Forall_app in H as [H _]. exact H.
Qed.

(** [resolve_targets] with explicit names that are all registered returns,
    in the order of the names (duplicates kept), one registered entry per
    name, carrying that name. *)
Theorem resolve_targets_known (root : string) (subs : list Submodule) (ns : list string)
    {W} (s : St W)
    (Hne : ns <> []) (Hknown : Forall (fun n => name_map_get subs n <> None) ns) :
  exists ts, resolve_targets root subs (Some ns) s = (Ok ts, s)
    /\ map name ts = ns /\ Forall (fun t => In t subs) ts.
Proof.
  assert (Hmiss : filter (fun n => match name_map_get subs n with
                                   | Some _ => false | None => true end) ns = []).
  { clear Hne. induction Hknown as [|n ns' Hn _ IH]; [reflexivity|].
    simpl. destruct (name_map_get subs n); [exact IH|contradiction]. }
  destruct ns as [|n0 ns0]; [contradiction|].
  unfold resolve_targets. rewrite Hmiss. cbn [nonempty].
  eexists. split; [reflexivity|].
  clear Hmiss Hne. induction Hknown as [|n ns' Hn _ [IH1 IH2]]; [split; constructor|].
  simpl. destruct (name_map_get subs n) as [m|] eqn:Hm; [|contradiction].
  destruct (name_map_get_some subs n m Hm) as [Hname Hin].
  simpl. rewrite Hname, IH1. split; [reflexivity|]. constructor; assumption.
Qed.


End Registry.

Section Paths.

Lemma split_on_nonempty (c : ascii) (s : string) : split_on c s <> [].
Proof.
  destruct s as [|x s]; simpl; [discriminate|].
  destruct (Ascii.eqb x c); [discriminate|]. destruct (split_on c s); discriminate.
Qed.

Lemma split_on_app (c : ascii) (a b : string) :
  split_on c (a +++ String c b) = split_on c a ++ split_on c b.
Proof.
  induction a as [|x a IH]; simpl; [rewrite Ascii.eqb_refl; reflexivity|].
  rewrite IH. destruct (Ascii.eqb x c); [reflexivity|].
  destruct (split_on c a) eqn:Hs; [exfalso; exact (split_on_nonempty c a Hs)|]. reflexivity.
Qed.

Lemma parts_of_app (a b : string) :
  parts_of (a +++ String slash b) = parts_of a ++ parts_of b.
Proof. unfold parts_of. rewrite split_on_app. apply filter_app. Qed.

Lemma split_on_single (c : ascii) (t : string) : no_char c t = true -> split_on c t = [t].
Proof.
  unfold no_char. induction t as [|x t IH]; simpl; [reflexivity|].
  destruct (Ascii.eqb x c); simpl; [discriminate|]. intros H. rewrite (IH H). reflexivity.
Qed.

Lemma split_on_pieces (c : ascii) (s : string) : Forall (fun x => no_char c x = true) (split_on c s).
Proof.
  unfold no_char. induction s as [|x s IH]; simpl; [repeat constructor|].
  destruct (Ascii.eqb x c) eqn:Hx; [constructor; [reflexivity|exact IH]|].
  destruct (split_on c s) as [|piece pieces]; simpl.
  - constructor; [|constructor]. simpl. rewrite Hx. reflexivity.
  - inversion IH as [|? ? Hp Hps]; subst. constructor; [|exact Hps]. simpl. rewrite Hx. exact Hp.
Qed.

Lemma parts_of_clean (s : string) : Forall (fun x => clean_part x = true) (parts_of s).
Proof.
  apply Forall_forall. intros x Hx. unfold parts_of in Hx. apply filter_In in Hx as [Hin Hk].
  unfold clean_part. rewrite Hk.
  exact (proj1 (Forall_forall _ _) (split_on_pieces slash s) x Hin).
Qed.

Lemma parts_of_join (ts : list string) :
  ts <> [] -> Forall (fun x => clean_part x = true) ts -> parts_of (join "/" ts) = ts.
Proof.
  induction ts as [|t ts IH]; intros Hne Hc; [contradiction|].
  inversion Hc as [|? ? Ht Hts]; subst. unfold clean_part in Ht. apply andb_true_iff in Ht as [Hk Hn].
  destruct ts as [|t2 ts].
  - simpl. unfold parts_of. rewrite (split_on_single _ _ Hn). simpl. rewrite Hk. reflexivity.
  - change (join "/" (t :: t2 :: ts)) with (t +++ String slash (join "/" (t2 :: ts))).
    rewrite parts_of_app, IH by (discriminate || exact Hts).
    unfold parts_of at 1. rewrite (split_on_single _ _ Hn). simpl. rewrite Hk. reflexivity.
Qed.

Lemma splitroot_anchor (p : string) :
  fst (splitroot p) = EmptyString \/ fst (splitroot p) = "/" \/ fst (splitroot p) = "//".
Proof.
  destruct p as [|c1 r1]; simpl; [left; reflexivity|].
  destruct (Ascii.eqb c1 slash); [|left; reflexivity].
  destruct r1 as [|c2 r2]; [right; left; reflexivity|].
  destruct (Ascii.eqb c2 slash); [|right; left; reflexivity].
  destruct r2 as [|c3 r3]; [right; right; reflexivity|].
  destruct (Ascii.eqb c3 slash); [right; left|right; right]; reflexivity.
Qed.

Lemma parse_render (a : string) (ts : list string) :
  (a = EmptyString \/ a = "/" \/ a = "//") -> Forall (fun x => clean_part x = true) ts ->
  parse_path (render_path a ts) = (a, ts).
Proof.
  intros Ha Hc. destruct ts as [|t ts].
  - destruct Ha as [->|[->| ->]]; reflexivity.
  - assert (Hj : exists c0 rest, join "/" (t :: ts) = String c0 rest /\ Ascii.eqb c0 slash = false).
    { inversion Hc as [|? ? Ht _]; subst. unfold clean_part, kept_part, no_char in Ht.
      destruct t as [|c0 t']; [discriminate|].
      exists c0. destruct ts as [|t2 ts]; [exists t'|exists (t' +++ "/" +++ join "/" (t2 :: ts))];
        (split; [reflexivity|]); simpl in Ht;
        destruct (Ascii.eqb c0 slash); [rewrite !andb_false_r in Ht; discriminate| |
          rewrite !andb_false_r in Ht; discriminate|]; reflexivity. }
    destruct Hj as [c0 [rest [Hj Hc0]]].
    assert (Hr : render_path a (t :: ts) = a +++ join "/" (t :: ts))
      by (unfold render_path; simpl; rewrite andb_false_r; reflexivity).
    rewrite Hr. unfold parse_path. rewrite Hj.
    destruct Ha as [->|[->| ->]]; simpl; rewrite Hc0; cbn [fst snd];
      rewrite <- Hj, parts_of_join by (discriminate || exact Hc); reflexivity.
Qed.

Lemma path_str_parse (p : string) : parse_path (path_str p) = parse_path p.
Proof.
  unfold path_str. rewrite parse_render; [destruct (parse_path p); reflexivity| |].
  - apply splitroot_anchor.
  - apply parts_of_clean.
Qed.

Lemma splitroot_app (root t : string) :
  root <> EmptyString -> root <> "/" -> root <> "//" ->
  splitroot (root +++ t) = (fst (splitroot root), snd (splitroot root) +++ t).
Proof.
  intros H1 H2 H3. destruct root as [|c1 r1]; [contradiction|]. simpl.
  destruct (Ascii.eqb c1 slash) eqn:E1; [|reflexivity].
  apply Ascii.eqb_eq in E1. subst c1.
  destruct r1 as [|c2 r2]; [exfalso; apply H2; reflexivity|]. simpl.
  destruct (Ascii.eqb c2 slash) eqn:E2; [|reflexivity].
  apply Ascii.eqb_eq in E2. subst c2.
  destruct r2 as [|c3 r3]; [exfalso; apply H3; reflexivity|]. simpl.
  destruct (Ascii.eqb c3 slash); reflexivity.
Qed.

Lemma splitroot_rel (p : string) : is_absolute p = false -> splitroot p = (EmptyString, p).
Proof. destruct p as [|c p]; simpl; [reflexivity|]. intros H. rewrite H. reflexivity. Qed.

Lemma str_app_assoc (a b c : string) : (a +++ b) +++ c = a +++ b +++ c.
Proof. induction a as [|x a IH]; simpl; [reflexivity|]. rewrite IH. reflexivity. Qed.

Lemma endswith_slash (root : string) : endswith root "/" = true -> exists r, root = r +++ "/".
Proof.
  induction root as [|c r IH]; intros H; [discriminate|].
  destruct r as [|c' r'].
  - exists EmptyString. unfold endswith in H. simpl in H.
    destruct (Ascii.eqb c "/"%char) eqn:Ec; [|discriminate].
    apply Ascii.eqb_eq in Ec. subst c. reflexivity.
  - assert (H' : endswith (String c' r') "/" = true).
    { unfold endswith in *. cbn [String.length] in *.
      replace (S (S (String.length r')) - 1) with (S (String.length r')) in H by lia.
      replace (S (String.length r') - 1) with (String.length r') by lia.
      simpl in H |- *. exact H. }
    destruct (IH H') as [r Hr]. exists (String c r). rewrite Hr. reflexivity.
Qed.

Lemma parse_posix_join (root p : string) :
  is_absolute p = false ->
  parse_path (posix_join root p) = (fst (parse_path root), snd (parse_path root) ++ parts_of p).
Proof.
  intros Hp. unfold posix_join. rewrite Hp.
  destruct (String.eqb root EmptyString) eqn:Er.
  - apply String.eqb_eq in Er. subst root. simpl. unfold parse_path. rewrite splitroot_rel by exact Hp.
    reflexivity.
  - cbn [orb]. destruct (endswith root "/") eqn:Ee.
    + destruct (endswith_slash root Ee) as [r ->]. rewrite str_app_assoc. cbn [String.append].
      destruct (string_dec r EmptyString) as [->|N1];
      [|destruct (string_dec r "/") as [->|N2];
        [|destruct (string_dec r "//") as [->|N3]]].
      * destruct p as [|c p']; [reflexivity|]. simpl in Hp.
        unfold parse_path. simpl. rewrite Hp. reflexivity.
      * destruct p as [|c p']; [reflexivity|]. simpl in Hp.
        unfold parse_path. simpl. rewrite Hp. reflexivity.
      * reflexivity.
      * unfold parse_path. rewrite !splitroot_app by assumption. cbn [fst snd].
        rewrite !parts_of_app. change (parts_of EmptyString) with (@nil string).
        rewrite app_nil_r. reflexivity.
    + assert (N1 : root <> EmptyString) by (intros ->; discriminate).
      assert (N2 : root <> "/") by (intros ->; discriminate).
      assert (N3 : root <> "//") by (intros ->; discriminate).
      change ("/" +++ p) with (String slash p).
      unfold parse_path. rewrite splitroot_app by assumption. cbn [fst snd].
      rewrite parts_of_app. reflexivity.
Qed.

Lemma parts_prefix_app (xs ys : list string) : parts_prefix xs (xs ++ ys) = true.
Proof. induction xs as [|x xs IH]; simpl; [reflexivity|]. rewrite String.eqb_refl. exact IH. Qed.

Lemma rel_join (root p : string) (Hrel : is_absolute p = false) :
  relative_to (path_join root p) root = Some (path_str p).
Proof.
  unfold relative_to, path_join. rewrite !path_str_parse, parse_posix_join by exact Hrel.
  cbn [fst snd]. rewrite String.eqb_refl, parts_prefix_app. cbn [andb].
  rewrite skipn_app, skipn_all, Nat.sub_diag. cbn [skipn app].
  unfold path_str, parse_path. rewrite splitroot_rel by exact Hrel. reflexivity.
Qed.

Lemma load_loop_map (root : string) (sections : list (string * option string)) :
  forall acc, load_loop root sections acc =
    acc ++ map (fun e => mk_submodule (strip_dquote (split1_last (fst e))) (path_join root (snd e)))
               (registered_entries sections).
Proof.
  induction sections as [|[sec p] rest IH]; intros acc; simpl.
  - rewrite app_nil_r. reflexivity.
  - destruct p as [p'|]; [destruct (truthy p')|]; rewrite IH; simpl;
      [rewrite <- app_assoc; reflexivity | reflexivity | reflexivity].
Qed.

Lemma lstrip_keep (f : ascii -> bool) (l : list ascii) :
  (forall c, hd_error l = Some c -> f c = false) -> lstrip_chars f l = l.
Proof. destruct l as [|c l]; simpl; [reflexivity|]. intros H. rewrite (H c eq_refl). reflexivity. Qed.

Lemma list_ascii_app (a b : string) :
  list_ascii_of_string (a +++ b) = list_ascii_of_string a ++ list_ascii_of_string b.
Proof. induction a as [|c a IH]; simpl; [reflexivity|]. rewrite IH. reflexivity. Qed.

(** [str((root / p).relative_to(root))] is [str(PurePosixPath(p))], the
    normal form of [p], for a relative [p]: the staging in [update-parent] of
    a submodule registered with a relative path never raises [ValueError],
    and stages [p] as pathlib normalises it. *)
Theorem relative_to_path_join (root p : string) (Hrel : is_absolute p = false) :
  relative_to (path_join root p) root = Some (path_str p).
Proof. apply rel_join. exact Hrel. Qed.

(** A section [submodule "NAME"] of [.gitmodules] registers the name NAME,
    when NAME neither starts nor ends with a double quote. *)
Theorem section_name_quoted (n : string)
  (Hfirst : forall c, hd_error (list_ascii_of_string n) = Some c -> c <> dquote)
  (Hlast : forall c, hd_error (rev (list_ascii_of_string n)) = Some c -> c <> dquote) :
  strip_dquote (split1_last ("submodule " +++ String dquote (n +++ String dquote EmptyString))) = n.
Proof.
  assert (Hf : forall c, c <> dquote -> Ascii.eqb c dquote = false)
    by (intros c Hc; apply Ascii.eqb_neq; exact Hc).
  unfold split1_last. cbn [after_first_space String.append Ascii.eqb Bool.eqb].
  unfold strip_dquote, strip_with. cbn [list_ascii_of_string].
  rewrite list_ascii_app. cbn [list_ascii_of_string].
  cbn [lstrip_chars]. rewrite Ascii.eqb_refl.
  destruct (list_ascii_of_string n) as [|c0 l] eqn:Hl.
  - simpl. destruct n; [reflexivity|discriminate].
  - rewrite (lstrip_keep _ ((c0 :: l) ++ [dquote])).
    2:{ intros c Hc. simpl in Hc. inversion Hc; subst. apply Hf, Hfirst. reflexivity. }
    rewrite rev_app_distr. cbn [rev app lstrip_chars]. rewrite Ascii.eqb_refl.
    rewrite lstrip_keep.
    2:{ intros c Hc. apply Hf, Hlast. exact Hc. }
    rewrite rev_app_distr, rev_involutive. change (string_of_list_ascii (c0 :: l) = n). rewrite <- Hl. apply string_of_list_ascii_of_string.
Qed.

(** [load_submodules] registers, in file order, exactly the sections with
    a non-empty [path]: the name is the last word of the section header with
    its quotes stripped and the path is [root / path]; when those paths are
    all relative, each submodule's path relative to [root] is its manifest
    path in pathlib's normal form.  Loading changes nothing. *)
Theorem load_submodules_entries {W} (E : Env W) (root : string) (s : St W)
  (sections : list (string * option string))
  (Hparse : read_gitmodules E (path_join root ".gitmodules") (world s) = Some sections) :
  exists subs, load_submodules E root s = (Ok subs, s)
    /\ map name subs = map (fun e => strip_dquote (split1_last (fst e))) (registered_entries sections)
    /\ map path subs = map (fun e => path_join root (snd e)) (registered_entries sections)
    /\ (Forall (fun e => is_absolute (snd e) = false) (registered_entries sections) ->
        map (fun m => relative_to (path m) root) subs
        = map (fun e => Some (path_str (snd e))) (registered_entries sections)).
Proof.
  eexists. split.
  - unfold load_submodules, read_world, bind, ret. cbn beta. rewrite Hparse. reflexivity.
  - rewrite load_loop_map. simpl app. rewrite !map_map. cbn [name path].
    split; [reflexivity|]. split; [reflexivity|].
    intros Hall. induction Hall as [|e es He _ IH]; [reflexivity|].
    simpl. rewrite rel_join by exact He. rewrite IH. reflexivity.
Qed.

End Paths.

Section Handlers.
Context {W : Type} (E : Env W).

Lemma outs_app (a b : list event) : outs (a ++ b) = outs a ++ outs b.
Proof. unfold outs. apply flat_map_app. Qed.

Lemma outs_dbg (d : bool) (msg : string) : outs (dbg_evs d msg) = [].
Proof. destruct d; reflexivity. Qed.

Lemma runs_only_set_debug (P : list string -> Prop) (b : bool) : runs_only P (@set_debug W b).
Proof. intros s. exists []. rewrite app_nil_r. split; [reflexivity|constructor]. Qed.

Lemma runs_only_catch {A} (P : list string -> Prop) (body : M W A) (h : string -> M W A) :
  runs_only P body -> (forall msg, runs_only P (h msg)) -> runs_only P (catch_workflow body h).
Proof.
  intros Hb Hh s. destruct (Hb s) as [e1 [T1 F1]]. unfold catch_workflow.
  destruct (body s) as [[a|[msg|k m]] s1]; simpl in T1 |- *.
  - exists e1. auto.
  - destruct (Hh msg s1) as [e2 [T2 F2]]. exists (e1 ++ e2).
    rewrite T2, T1, app_assoc. split; [reflexivity|].
    rewrite execs_app. apply Forall_app. auto.
  - exists e1. auto.
Qed.

Lemma runs_only_changed_loop (P : list string -> Prop) (subs : list Submodule) (ic : bool) :
  Forall (fun m => P (status_cmd (path m))) subs ->
  forall dirty, runs_only P (changed_loop E subs ic dirty).
Proof.
  induction 1 as [|m rest Hm _ IH]; intros dirty; cbn [changed_loop].
  - apply runs_only_ret.
  - apply runs_only_bind; [apply runs_only_git_status_lines; exact Hm|]. intros lines.
    apply runs_only_bind; [destruct (_ || _); [apply runs_only_debug|apply runs_only_ret]|].
    intros _. apply IH.
Qed.

(** The status scan, observed: one query per entry, nothing printed. *)
Lemma changed_loop_full (ic : bool) :
  forall subs dirty s, status_read_only E (world s) subs ->
    exists evs, changed_loop E subs ic dirty s
      = (Ok (dirty ++ filter (status_dirty E (world s)) subs), mk_st (world s) (trace s ++ evs) (DEBUG s))
      /\ execs evs = map (fun m => status_cmd (path m)) subs /\ outs evs = [].
Proof.
  intros subs dirty s Hro.
  destruct (changed_loop_eq E ic subs dirty s Hro) as [H1 H2].
  destruct (changed_loop_trace E ic subs dirty s) as [evs [T X]].
  assert (Hd : forall subs' dirty' s', DEBUG (snd (changed_loop E subs' ic dirty' s')) = DEBUG s'
             /\ exists evs', trace (snd (changed_loop E subs' ic dirty' s')) = trace s' ++ evs'
                             /\ outs evs' = []).
  { induction subs' as [|m rest IH]; intros dirty' s'.
    - split; [reflexivity|]. exists []. rewrite app_nil_r. split; reflexivity.
    - cbn [changed_loop]. rewrite (bind_step _ _ _ _ _ (git_status_lines_exact E (path m) s')).
      set (s1 := mk_st _ _ _).
      set (lines := status_lines_of _).
      assert (Hs : exists evd s2, (if nonempty lines || ic
          then debug ("Submodule " +++ name m +++ " status: " +++ py_repr_list lines) else ret tt) s1
          = (Ok tt, s2) /\ trace s2 = trace s1 ++ evd /\ outs evd = [] /\ DEBUG s2 = DEBUG s1).
      { destruct (nonempty lines || ic).
        - rewrite debug_exact. do 2 eexists. split; [reflexivity|].
          split; [reflexivity|]. split; [apply outs_dbg|reflexivity].
        - exists [], s1. rewrite app_nil_r. repeat split. }
      destruct Hs as (evd & s2 & Hs2 & T2 & O2 & D2).
      rewrite (bind_step _ _ _ _ _ Hs2).
      destruct (IH (if nonempty lines then dirty' ++ [m] else dirty') s2) as [IHd [e3 [T3 O3]]].
      rewrite IHd, D2. split; [reflexivity|].
      rewrite T3, T2. unfold s1 at 1. cbn [trace].
      eexists. split; [rewrite <- !app_assoc; reflexivity|].
      rewrite !outs_app, O3, O2, outs_dbg. reflexivity. }
  destruct (Hd subs dirty s) as [HD [evs' [T' O']]].
  rewrite T in T'. apply app_inv_head in T'. subst evs'.
  exists evs. split; [|split; assumption].
  destruct (changed_loop E subs ic dirty s) as [o s1] eqn:Hc. simpl in H1, H2, T, HD.
  subst o. destruct s1 as [w1 tr1 d1]. simpl in *. subst. reflexivity.
Qed.

Lemma for_each_print (f : string -> string) (ls : list string) (s : St W) :
  for_each ls (fun l => print_out (f l)) s
  = (Ok tt, mk_st (world s) (trace s ++ map (fun l => Out (f l)) ls) (DEBUG s)).
Proof.
  revert s. induction ls as [|l rest IH]; intros s; simpl.
  - rewrite app_nil_r. destruct s; reflexivity.
  - unfold bind at 1. unfold print_out, emit. rewrite IH. cbn [world trace DEBUG].
    rewrite <- app_assoc. reflexivity.
Qed.

(** A loop whose body, in a fixed world [w] and debug flag [d], only
    appends [g x]. *)
Lemma for_each_frame {A} (xs : list A) (body : A -> M W unit) (g : A -> list event) (w : W) (d : bool) :
  (forall x s, In x xs -> world s = w -> DEBUG s = d ->
     body x s = (Ok tt, mk_st w (trace s ++ g x) d)) ->
  forall s, world s = w -> DEBUG s = d ->
    for_each xs body s = (Ok tt, mk_st w (trace s ++ concat (map g xs)) d).
Proof.
  induction xs as [|x rest IH]; intros Hb s Hw Hd; simpl.
  - rewrite app_nil_r, <- Hw, <- Hd. destruct s; reflexivity.
  - rewrite (bind_step _ _ _ _ _ (Hb x s (or_introl eq_refl) Hw Hd)).
    rewrite IH; [| intros y s' Hy; apply Hb; right; exact Hy | reflexivity | reflexivity].
    cbn [trace]. rewrite <- app_assoc. reflexivity.
Qed.

Lemma execs_concat {A} (g : A -> list event) (xs : list A) :
  execs (concat (map g xs)) = concat (map (fun x => execs (g x)) xs).
Proof. induction xs as [|x rest IH]; simpl; [reflexivity|]. rewrite execs_app, IH. reflexivity. Qed.

Lemma outs_concat {A} (g : A -> list event) (xs : list A) :
  outs (concat (map g xs)) = concat (map (fun x => outs (g x)) xs).
Proof. induction xs as [|x rest IH]; simpl; [reflexivity|]. rewrite outs_app, IH. reflexivity. Qed.

Lemma execs_outs (ls : list string) : execs (map Out ls) = [].
Proof. induction ls; simpl; [reflexivity|]. exact IHls. Qed.

Lemma outs_outs (ls : list string) : outs (map Out ls) = ls.
Proof. induction ls; simpl; [reflexivity|]. rewrite IHls. reflexivity. Qed.

Lemma concat_map_single {A B} (f : A -> B) (xs : list A) : concat (map (fun x => [f x]) xs) = map f xs.
Proof. induction xs; simpl; [reflexivity|]. rewrite IHxs. reflexivity. Qed.

Lemma status_body_exact (root : string) (m : Submodule) (s : St W) :
  snd (subprocess_run E (status_cmd (path m)) (world s)) = world s ->
  (lines <- git_status_lines E (path m) ;;
   print_out (name m +++ " (" +++ path m +++ "):") ;;
   if nonempty lines then for_each lines (fun line => print_out ("  " +++ line))
   else print_out "  clean") s
  = (Ok tt, mk_st (world s) (trace s ++
       (dbg_evs (DEBUG s) ("Executing: " +++ join " " (status_cmd (path m)))
        ++ [Exec (status_cmd (path m)) (fst (subprocess_run E (status_cmd (path m)) (world s)))]
        ++ map Out (status_report m (status_lines_of (fst (subprocess_run E (status_cmd (path m)) (world s)))))))
       (DEBUG s)).
Proof.
  intros Hro.
  rewrite (bind_step _ _ _ _ _ (git_status_lines_exact E (path m) s)). rewrite Hro.
  unfold bind at 1. unfold print_out at 1, emit. cbn [world trace DEBUG].
  unfold status_report.
  destruct (nonempty (status_lines_of _)).
  - rewrite for_each_print. cbn [world trace DEBUG map]. rewrite map_map.
    rewrite <- !app_assoc. reflexivity.
  - unfold print_out, emit. cbn [world trace DEBUG]. rewrite <- !app_assoc. reflexivity.
Qed.

(** [status]: it reports, in order, the targets when [--include-clean] is
    given and otherwise the dirty ones (found by a first scan of all the
    targets); for each it prints the header [name (path):] then each status
    line indented, or [  clean].  With nothing to report it prints
    [No dirty submodules detected.].  Its only commands are the status
    queries. *)
Theorem handle_status_output (root : string) (targets : list Submodule) (ic : bool) (s : St W)
  (Hro : status_read_only E (world s) targets) :
  let shown := if ic then targets else filter (status_dirty E (world s)) targets in
  exists evs,
    handle_status E root targets ic s = (Ok tt, mk_st (world s) (trace s ++ evs) (DEBUG s))
    /\ execs evs = (if ic then [] else map (fun m => status_cmd (path m)) targets)
                   ++ map (fun m => status_cmd (path m)) shown
    /\ outs evs = (if nonempty shown
                   then concat (map (fun m => status_report m
                          (status_lines_of (fst (subprocess_run E (status_cmd (path m)) (world s))))) shown)
                   else ["No dirty submodules detected."]).
Proof.
  intros shown.
  set (g := fun m => dbg_evs (DEBUG s) ("Executing: " +++ join " " (status_cmd (path m)))
        ++ [Exec (status_cmd (path m)) (fst (subprocess_run E (status_cmd (path m)) (world s)))]
        ++ map Out (status_report m (status_lines_of (fst (subprocess_run E (status_cmd (path m)) (world s)))))).
  assert (Hshown : status_read_only E (world s) shown).
  { unfold shown. destruct ic; [exact Hro|].
    apply Forall_forall. intros m Hm. apply filter_In in Hm as [Hm _].
    exact (proj1 (Forall_forall _ _) Hro m Hm). }
  assert (Hloop : forall s', world s' = world s -> DEBUG s' = DEBUG s ->
    (if negb (nonempty shown) then print_out "No dirty submodules detected."
     else for_each shown (fun module =>
       lines <- git_status_lines E (path module) ;;
       print_out (name module +++ " (" +++ path module +++ "):") ;;
       if nonempty lines then for_each lines (fun line => print_out ("  " +++ line))
       else print_out "  clean")) s'
    = (Ok tt, mk_st (world s) (trace s' ++
         (if nonempty shown then concat (map g shown) else [Out "No dirty submodules detected."]))
         (DEBUG s))).
  { intros s' Hw Hd. destruct (nonempty shown); cbn [negb].
    - apply for_each_frame; [|exact Hw|exact Hd].
      intros m s'' Hm Hw' Hd'. rewrite (status_body_exact root m s'').
      + unfold g. rewrite Hw', Hd'. reflexivity.
      + rewrite Hw'. exact (proj1 (Forall_forall _ _) Hshown m Hm).
    - unfold print_out, emit. rewrite Hw, Hd. reflexivity. }
  assert (Hg : forall m, execs (g m) = [status_cmd (path m)]
                 /\ outs (g m) = status_report m (status_lines_of
                      (fst (subprocess_run E (status_cmd (path m)) (world s))))).
  { intros m. unfold g. rewrite !execs_app, !outs_app, execs_dbg, outs_dbg, execs_outs, outs_outs.
    split; reflexivity. }
  assert (Hrest : execs (if nonempty shown then concat (map g shown) else [Out "No dirty submodules detected."])
                  = map (fun m => status_cmd (path m)) shown
                  /\ outs (if nonempty shown then concat (map g shown) else [Out "No dirty submodules detected."])
                  = (if nonempty shown
                     then concat (map (fun m => status_report m
                          (status_lines_of (fst (subprocess_run E (status_cmd (path m)) (world s))))) shown)
                     else ["No dirty submodules detected."])).
  { clear Hloop Hshown. clearbody shown.
    destruct shown as [|m0 ms]; cbn [nonempty]; [split; reflexivity|].
    rewrite execs_concat, outs_concat.
    split.
    - rewrite <- (concat_map_single (fun m => status_cmd (path m))).
      f_equal. apply map_ext. intros m. apply (proj1 (Hg m)).
    - f_equal. apply map_ext. intros m. apply (proj2 (Hg m)). }
  unfold handle_status. destruct ic.
  - change shown with targets in Hloop. change shown with targets in Hrest.
    rewrite bind_ret_at. cbv beta. rewrite (Hloop s eq_refl eq_refl).
    eexists. split; [destruct s; reflexivity|]. exact Hrest.
  - unfold changed_submodules.
    destruct (changed_loop_full false targets [] s Hro) as [ev1 [Hc [X1 O1]]].
    change shown with (filter (status_dirty E (world s)) targets) in Hloop.
    change shown with (filter (status_dirty E (world s)) targets) in Hrest.
    rewrite (bind_step _ _ _ _ _ Hc). cbn [app]. cbv beta.
    rewrite Hloop by reflexivity. cbn [trace].
    eexists. split; [rewrite <- app_assoc; reflexivity|].
    rewrite execs_app, outs_app, X1, O1. destruct Hrest as [R1 R2]. rewrite R1, R2.
    split; reflexivity.
Qed.

(** The other subcommands, when no target is dirty: after the scan they
    print their "No dirty submodules detected; ..." message and run
    nothing more. *)
Theorem dispatch_nothing_dirty (root : string) (targets : list Submodule) (args : Namespace)
  (s : St W)
  (Hro : status_read_only E (world s) targets) (Hcmd : command args <> CmdStatus)
  (Hclean : filter (status_dirty E (world s)) targets = []) :
  exists evs,
    dispatch E root targets args s = (Ok tt, mk_st (world s) (trace s ++ evs) (DEBUG s))
    /\ execs evs = map (fun m => status_cmd (path m)) targets
    /\ outs evs = [no_dirty_msg (command args)].
Proof.
  destruct (changed_loop_full false targets [] s Hro) as [ev1 [Hc [X1 O1]]].
  rewrite Hclean in Hc. cbn [app] in Hc.
  exists (ev1 ++ [Out (no_dirty_msg (command args))]).
  rewrite execs_app, outs_app, X1, O1. split; [|split; cbn; [apply app_nil_r|reflexivity]].
  unfold dispatch. destruct (command args); [contradiction| | | |];
    [unfold handle_branch|unfold handle_push|unfold handle_mr|unfold handle_update_parent];
    unfold changed_submodules; rewrite (bind_step _ _ _ _ _ Hc); cbn [nonempty negb];
    unfold print_out, emit; cbn [world trace DEBUG]; rewrite <- app_assoc; reflexivity.
Qed.

(** [status] is read-only for git: the only external commands a run of
    the [status] subcommand can issue are [git -C <path> status --porcelain]. *)
Theorem main_status_read_only (args : Namespace) (Hcmd : command args = CmdStatus) :
  runs_only (fun c => exists p, c = status_cmd p) (main E args).
Proof.
  unfold main. apply runs_only_bind; [apply runs_only_set_debug|]. intros _.
  apply runs_only_catch; [|intros msg; apply runs_only_bind;
                            [apply runs_only_print_err | intros _; apply runs_only_ret]].
  unfold main_body, ensure_repo, load_submodules, resolve_targets.
  apply runs_only_bind; [|intros root].
  { apply runs_only_bind; [apply runs_only_read_world|]. intros r.
    apply runs_only_bind; [apply runs_only_read_world|]. intros ok.
    destruct ok; [apply runs_only_ret|apply runs_only_raise]. }
  apply runs_only_bind; [|intros subs].
  { apply runs_only_bind; [apply runs_only_read_world|]. intros parsed.
    destruct parsed; [apply runs_only_ret|apply runs_only_raise]. }
  destruct (negb (nonempty subs)).
  { apply runs_only_bind; [apply runs_only_print_out|]. intros _. apply runs_only_ret. }
  apply runs_only_bind; [|intros targets].
  { destruct (modules args) as [[|n ns]|]; try apply runs_only_ret.
    destruct (nonempty _); [apply runs_only_raise|apply runs_only_ret]. }
  apply runs_only_bind; [|intros _; apply runs_only_ret].
  unfold dispatch. rewrite Hcmd. unfold handle_status.
  apply runs_only_bind.
  { destruct (include_clean args); [apply runs_only_ret|].
    apply runs_only_changed_loop. apply Forall_forall. intros m _. eexists. reflexivity. }
  intros modules. destruct (negb (nonempty modules)); [apply runs_only_print_out|].
  apply runs_only_for_each. intros m _.
  apply runs_only_bind; [apply runs_only_git_status_lines; eexists; reflexivity|]. intros lines.
  apply runs_only_bind; [apply runs_only_print_out|]. intros _.
  destruct (nonempty lines); [|apply runs_only_print_out].
  apply runs_only_for_each. intros l _. apply runs_only_print_out.
Qed.

End Handlers.

Section Outcomes.
Context {W : Type} (E : Env W).

Lemma exec_results_app (a b : list event) : exec_results (a ++ b) = exec_results a ++ exec_results b.
Proof. unfold exec_results. apply flat_map_app. Qed.

Lemma exec_results_dbg (d : bool) (msg : string) : exec_results (dbg_evs d msg) = [].
Proof. destruct d; reflexivity. Qed.

(** One turn of the loop of [update_parent] on a module that lies under [root]. *)
Lemma update_parent_step (root rel : string) (m : Submodule) (s : St W) :
  relative_to (path m) root = Some rel ->
  (rel' <- relative_path m root ;; run_git E root ["add"; rel'] true ;; ret tt) s =
  (if negb (returncode (fst (subprocess_run E (git_cmd root ["add"; rel]) (world s))) =? 0)%Z
   then Raise (WorkflowError (diagnostic (fst (subprocess_run E (git_cmd root ["add"; rel]) (world s)))))
   else Ok tt,
   mk_st (snd (subprocess_run E (git_cmd root ["add"; rel]) (world s)))
     (trace s ++ dbg_evs (DEBUG s) ("Executing: " +++ join " " (git_cmd root ["add"; rel]))
        ++ [Exec (git_cmd root ["add"; rel]) (fst (subprocess_run E (git_cmd root ["add"; rel]) (world s)))])
     (DEBUG s)).
Proof.
  intros Hrel. unfold relative_path. rewrite Hrel. rewrite bind_ret_at.
  unfold bind at 1. rewrite run_git_exact. cbn [andb].
  destruct (negb _); reflexivity.
Qed.

Lemma mr_one_no_branch (target : string) (title : option string) (draft : bool) (m : Submodule)
  (s : St W) :
  opt_truthy (current_obs E (world s) (path m)) = false ->
  mr_one E target title draft m s =
  (Raise (WorkflowError ("Submodule " +++ name m
            +++ " does not have an active branch; create one before opening an MR.")),
   mk_st (snd (subprocess_run E (abbrev_cmd (path m)) (world s)))
     (trace s ++ dbg_evs (DEBUG s) ("Executing: " +++ join " " (abbrev_cmd (path m)))
        ++ [Exec (abbrev_cmd (path m)) (fst (subprocess_run E (abbrev_cmd (path m)) (world s)))])
     (DEBUG s)).
Proof.
  intros H. unfold mr_one.
  rewrite (bind_step _ _ _ _ _ (get_current_branch_exact E (path m) s)).
  destruct (current_obs E (world s) (path m)) as [b|]; simpl in H; [rewrite H|]; reflexivity.
Qed.

(** [ensure_repo] inside [main]: when [<resolved repo root>/.gitmodules]
    does not exist, the run prints
    [Error: Expected to find a .gitmodules file in <root>; is this the ape repository?]
    to stderr, exits with 1, and runs no command at all. *)
Theorem main_missing_gitmodules (args : Namespace) (s : St W)
  (Hmiss : path_exists E (path_join (path_resolve E (repo_root args) (world s)) ".gitmodules")
             (world s) = false) :
  main E args s =
  (Ok 1%Z, mk_st (world s)
     (trace s ++ [ErrOut ("Error: Expected to find a .gitmodules file in "
                          +++ path_resolve E (repo_root args) (world s)
                          +++ "; is this the ape repository?")])
     (verbose args)).
Proof.
  unfold main, main_body, catch_workflow, set_debug.
  unfold bind at 1. cbv beta iota.
  unfold bind at 1. rewrite ensure_repo_exact. cbn [world]. rewrite Hmiss.
  reflexivity.
Qed.

(** [load_submodules] inside [main]: when [.gitmodules] exists but cannot
    be parsed, the [configparser] error is not a [WorkflowError]: [main]
    does not catch it, prints nothing and has run no command. *)
Theorem main_bad_gitmodules (args : Namespace) (s : St W)
  (Hex : path_exists E (path_join (path_resolve E (repo_root args) (world s)) ".gitmodules")
           (world s) = true)
  (Hbad : read_gitmodules E (path_join (path_resolve E (repo_root args) (world s)) ".gitmodules")
            (world s) = None) :
  main E args s =
  (Raise (OtherError "configparser.Error"
            (path_join (path_resolve E (repo_root args) (world s)) ".gitmodules")),
   mk_st (world s) (trace s) (verbose args)).
Proof.
  unfold main, main_body, catch_workflow, set_debug.
  unfold bind at 1. cbv beta iota.
  unfold bind at 1. rewrite ensure_repo_exact. cbn [world]. rewrite Hex. cbv beta iota.
  unfold bind at 1. rewrite load_submodules_exact. cbn [world]. rewrite Hbad.
  reflexivity.
Qed.

(** [update_parent] stages the modules one by one with a checked
    [git -C <root> add <relative path>], in order.  When every module lies
    under [root]: if it completes, it has run exactly those [add] commands,
    all with exit code 0; if it fails, the commands it ran are a prefix of
    them whose last one exited non-zero, the earlier ones all succeeded, and
    the error is the [WorkflowError] carrying the last one's diagnostic. *)
Theorem update_parent_adds (root : string) (subs : list Submodule) (s : St W)
  (Hrel : Forall (fun m => relative_to (path m) root <> None) subs) :
  exists evs,
    trace (snd (update_parent E root subs s)) = trace s ++ evs
    /\ match fst (update_parent E root subs s) with
       | Ok _ => map fst (exec_results evs) = add_cmds root subs
                 /\ Forall (fun cr => returncode (snd cr) = 0%Z) (exec_results evs)
       | Raise e => exists pre c r,
           exec_results evs = pre ++ [(c, r)]
           /\ Forall (fun cr => returncode (snd cr) = 0%Z) pre
           /\ returncode r <> 0%Z
           /\ e = WorkflowError (diagnostic r)
           /\ map fst pre ++ [c] = firstn (S (length pre)) (add_cmds root subs)
       end.
Proof.
  revert s. induction subs as [|m rest IH]; intros s.
  - exists []. split; [rewrite app_nil_r; reflexivity|]. split; [reflexivity|constructor].
  - inversion Hrel as [|? ? Hm Hrest]; subst.
    destruct (relative_to (path m) root) as [rel|] eqn:Hr; [|contradiction].
    assert (Hadd : add_cmds root (m :: rest) = git_cmd root ["add"; rel] :: add_cmds root rest).
    { unfold add_cmds. cbn [flat_map]. rewrite Hr. reflexivity. }
    pose proof (update_parent_step root rel m s Hr) as Hst.
    set (c := git_cmd root ["add"; rel]) in *.
    set (r := fst (subprocess_run E c (world s))) in *.
    set (s1 := mk_st (snd (subprocess_run E c (world s)))
                 (trace s ++ dbg_evs (DEBUG s) ("Executing: " +++ join " " c) ++ [Exec c r])
                 (DEBUG s)) in Hst.
    rewrite Hadd.
    destruct (returncode r =? 0)%Z eqn:Hrc; cbn [negb] in Hst.
    + assert (Heq : update_parent E root (m :: rest) s = update_parent E root rest s1).
      { unfold update_parent at 1. cbn [for_each]. rewrite (bind_step _ _ _ _ _ Hst). reflexivity. }
      rewrite Heq. destruct (IH Hrest s1) as [evs [Htr Hmatch]].
      exists (dbg_evs (DEBUG s) ("Executing: " +++ join " " c) ++ [Exec c r] ++ evs).
      split; [rewrite Htr; cbn [trace s1]; rewrite <- !app_assoc; reflexivity|].
      rewrite !exec_results_app, exec_results_dbg. cbn [app exec_results flat_map].
      apply Z.eqb_eq in Hrc.
      destruct (fst (update_parent E root rest s1)) as [u|e].
      * destruct Hmatch as [H1 H2]. split; [cbn [map fst]; rewrite H1; reflexivity|].
        constructor; [exact Hrc|exact H2].
      * destruct Hmatch as [pre [c' [r' [H1 [H2 [H3 [H4 H5]]]]]]].
        exists ((c, r) :: pre), c', r'. rewrite H1.
        split; [reflexivity|]. split; [constructor; assumption|].
        split; [exact H3|]. split; [exact H4|].
        cbn [map fst length app firstn]. rewrite H5. reflexivity.
    + assert (Heq : update_parent E root (m :: rest) s =
                    (Raise (WorkflowError (diagnostic r)), s1)).
      { unfold update_parent at 1. cbn [for_each]. exact (bind_raise_step _ _ _ _ _ Hst). }
      rewrite Heq. exists (dbg_evs (DEBUG s) ("Executing: " +++ join " " c) ++ [Exec c r]).
      split; [reflexivity|].
      cbn [fst]. exists [], c, r.
      rewrite exec_results_app, exec_results_dbg.
      split; [reflexivity|]. split; [constructor|].
      split; [apply Z.eqb_neq; exact Hrc|]. split; reflexivity.
Qed.

(** [create_merge_request] with a review tool selected: after the checked
    [origin] URL query it runs the tool's command; a non-zero exit code [n]
    raises [WorkflowError "Merge request command failed with exit code n."],
    exit code 0 completes.  The script prints nothing itself either way; the
    tool's output is not captured, so what the tool writes to stdout and
    stderr appears on the script's stdout and stderr. *)
Theorem create_merge_request_exit (p branch target : string) (title : option string)
  (draft : bool) (s : St W) (t : string)
  (Hurl : returncode (fst (subprocess_run E (geturl_cmd p) (world s))) = 0%Z)
  (Htool : detect_mr_tool E (snd (subprocess_run E (geturl_cmd p) (world s)))
             (strip (stdout (fst (subprocess_run E (geturl_cmd p) (world s))))) = Some t) :
  let w1 := snd (subprocess_run E (geturl_cmd p) (world s)) in
  let cmd := mr_command t branch target title draft in
  let rc := returncode (fst (subprocess_run E cmd w1)) in
  exists evs,
    create_merge_request E p branch target title draft s =
    (if (rc =? 0)%Z then Ok tt
     else Raise (WorkflowError ("Merge request command failed with exit code "
                                +++ z_to_string rc +++ ".")),
     mk_st (snd (subprocess_run E cmd w1)) (trace s ++ evs) (DEBUG s))
    /\ execs evs = [geturl_cmd p; cmd]
    /\ outs evs = []
    /\ child_outs evs = [stdout (fst (subprocess_run E cmd w1))]
    /\ child_errs evs = [stderr (fst (subprocess_run E cmd w1))].
Proof.
  cbv zeta.
  unfold create_merge_request. unfold bind at 1. rewrite run_git_exact.
  change (git_cmd p ["remote"; "get-url"; "origin"]) with (geturl_cmd p). cbn [andb].
  rewrite Hurl. cbv beta iota. simpl negb. cbv iota.
  unfold bind at 1, read_world. cbn [world]. rewrite Htool. cbv beta iota.
  unfold bind at 1. rewrite debug_exact. cbv beta iota. cbn [world trace DEBUG].
  unfold bind at 1, exec_inherit. cbn [world trace DEBUG].
  destruct (subprocess_run E (mr_command t branch target title draft) _) as [r w2].
  cbv beta iota. cbn [fst snd returncode].
  eexists. split.
  - destruct (returncode r =? 0)%Z; cbn [negb]; unfold raise, ret;
      rewrite <- !app_assoc; reflexivity.
  - rewrite !execs_app, !outs_app, !execs_dbg, !outs_dbg. split; [reflexivity|].
    split; [reflexivity|].
    unfold child_outs, child_errs. rewrite !flat_map_app. destruct (DEBUG s); split; reflexivity.
Qed.

(** One turn of [handle_push] on a module whose current branch is [b]:
    it runs the branch query, then [git -C <path> push [-u] <remote> <b>]
    ([-u] exactly when [--set-upstream] is given).  On exit code 0 it prints
    [Pushed <name> (<path>) to <remote>/<b>.]; otherwise it raises the
    push's diagnostic and prints nothing. *)
Theorem push_one_pushes (remote : string) (up : bool) (m : Submodule) (s : St W) (b : string)
  (Hb : current_obs E (world s) (path m) = Some b) (Ht : truthy b = true) :
  let w1 := snd (subprocess_run E (abbrev_cmd (path m)) (world s)) in
  let pc := git_cmd (path m) (if up then ["push"; "-u"; remote; b] else ["push"; remote; b]) in
  let r := fst (subprocess_run E pc w1) in
  exists evs,
    push_one E remote up m s =
    (if (returncode r =? 0)%Z then Ok tt else Raise (WorkflowError (diagnostic r)),
     mk_st (snd (subprocess_run E pc w1)) (trace s ++ evs) (DEBUG s))
    /\ execs evs = [abbrev_cmd (path m); pc]
    /\ outs evs = (if (returncode r =? 0)%Z
                   then ["Pushed " +++ name m +++ " (" +++ path m +++ ") to "
                         +++ remote +++ "/" +++ b +++ "."]
                   else []).
Proof.
  cbv zeta. unfold push_one.
  rewrite (bind_step _ _ _ _ _ (get_current_branch_exact E (path m) s)).
  rewrite Hb. cbv beta iota. rewrite Ht.
  unfold push_branch. rewrite bind_assoc_at.
  unfold bind at 1. rewrite run_git_exact. cbn [world trace DEBUG andb].
  destruct (returncode _ =? 0)%Z; cbn [negb]; eexists; split;
    [unfold bind, ret, raise, print_out, emit; cbn [world trace DEBUG];
     rewrite <- !app_assoc; reflexivity
    |rewrite !execs_app, !outs_app, !execs_dbg, !outs_dbg; split; reflexivity
    |unfold bind, ret, raise, print_out, emit; cbn [world trace DEBUG];
     rewrite <- !app_assoc; reflexivity
    |rewrite !execs_app, !outs_app, !execs_dbg, !outs_dbg; split; reflexivity].
Qed.

(** [mr] stops at the first target without an active branch.  Say the scan
    classifies [pre ++ m :: post] dirty, the merge requests of [pre] are
    created, and then the ref query of [m] reports no branch: [handle_mr]
    raises [Submodule <m> does not have an active branch; ...] and, after
    [pre], runs only that ref query, so no review command is run for [m] or
    for any target of [post]. *)
Theorem handle_mr_no_branch (root : string) (targets pre post : list Submodule) (m : Submodule)
  (target : string) (title : option string) (draft : bool) (s s1 : St W)
  (Hro : status_read_only E (world s) targets)
  (Hdirty : filter (status_dirty E (world s)) targets = pre ++ m :: post)
  (Hpre : for_each pre (mr_one E target title draft)
            (snd (changed_submodules E targets false s)) = (Ok tt, s1))
  (Hdet : opt_truthy (current_obs E (world s1) (path m)) = false) :
  exists evs,
    handle_mr E root targets target title draft s =
    (Raise (WorkflowError ("Submodule " +++ name m
              +++ " does not have an active branch; create one before opening an MR.")),
     mk_st (snd (subprocess_run E (abbrev_cmd (path m)) (world s1))) (trace s1 ++ evs) (DEBUG s1))
    /\ execs evs = [abbrev_cmd (path m)].
Proof.
  assert (Hc1 : fst (changed_submodules E targets false s) = Ok (pre ++ m :: post)).
  { rewrite <- Hdirty. exact (proj1 (changed_loop_eq E false targets [] s Hro)). }
  unfold handle_mr.
  destruct (changed_submodules E targets false s) as [o s0] eqn:Hc.
  simpl in Hc1, Hpre. subst o.
  rewrite (bind_step _ _ _ _ _ Hc). cbv beta.
  replace (nonempty (pre ++ m :: post)) with true by (destruct pre; reflexivity).
  cbn [negb].
  rewrite for_each_app_at.
  rewrite (bind_step _ _ _ _ _ Hpre). cbv beta.
  cbn [for_each].
  rewrite (bind_raise_step _ _ _ _ _ (mr_one_no_branch target title draft m s1 Hdet)).
  eexists. split; [reflexivity|].
  rewrite execs_app, execs_dbg. reflexivity.
Qed.

End Outcomes.

Section Reports.
Context {W : Type} (E : Env W).

(** [c] prints nothing to stdout (its processes' output is captured). *)
Definition silent {A} (c : M W A) : Prop :=
  forall s, exists evs, trace (snd (c s)) = trace s ++ evs /\ outs evs = [].

(** Whenever [c] completes, it returns [v]. *)
Definition returns_only {A} (v : A) (c : M W A) : Prop :=
  forall s x, fst (c s) = Ok x -> x = v.

Lemma silent_ret {A} (a : A) : silent (ret a).
Proof. intros s. exists []. split; [rewrite app_nil_r|]; reflexivity. Qed.

Lemma silent_raise {A} (e : exn) : silent (A:=A) (raise e).
Proof. intros s. exists []. split; [rewrite app_nil_r|]; reflexivity. Qed.

Lemma silent_debug (msg : string) : silent (debug msg).
Proof.
  intros s. rewrite debug_exact. exists (dbg_evs (DEBUG s) msg). split; [reflexivity|apply outs_dbg].
Qed.

Lemma silent_run_git (p : string) (args : list string) (check : bool) : silent (run_git E p args check).
Proof.
  intros s. rewrite run_git_exact. eexists. split; [reflexivity|].
  rewrite outs_app, outs_dbg. reflexivity.
Qed.

Lemma silent_bind {A B} (c : M W A) (k : A -> M W B) :
  silent c -> (forall a, silent (k a)) -> silent (bind c k).
Proof.
  intros Hc Hk s. destruct (Hc s) as [e1 [T1 O1]]. unfold bind.
  destruct (c s) as [[a|e] s1]; cbn [snd] in T1 |- *.
  - destruct (Hk a s1) as [e2 [T2 O2]]. exists (e1 ++ e2).
    rewrite T2, T1, app_assoc, outs_app, O1, O2. split; reflexivity.
  - exists e1. split; assumption.
Qed.

Lemma returns_only_ret {A} (v : A) : returns_only v (ret v).
Proof. intros s x H. inversion H. reflexivity. Qed.

Lemma returns_only_raise {A} (v : A) (e : exn) : returns_only v (raise e).
Proof. intros s x H. discriminate. Qed.

Lemma returns_only_bind {A B} (v : B) (c : M W A) (k : A -> M W B) :
  (forall a, returns_only v (k a)) -> returns_only v (bind c k).
Proof.
  intros Hk s x. unfold bind. destruct (c s) as [[a|e] s1]; [apply Hk|discriminate].
Qed.

Ltac silent_tac :=
  repeat first
    [ apply silent_ret | apply silent_raise | apply silent_debug | apply silent_run_git
    | progress (unfold git_status_lines, get_current_branch)
    | apply silent_bind; [|intros ?]
    | match goal with
      | |- silent (if ?b then _ else _) => destruct b
      | |- silent (match ?x with _ => _ end) => destruct x
      end ].

Ltac returns_tac :=
  repeat first
    [ apply returns_only_ret | apply returns_only_raise
    | apply returns_only_bind; intros ?
    | match goal with
      | |- returns_only _ (if ?b then _ else _) => destruct b
      | |- returns_only _ (match ?x with _ => _ end) => destruct x
      end ].

(** [ensure_branch] prints nothing to stdout and, when it completes,
    returns the requested branch name. *)
Lemma ensure_branch_silent (p b remote : string) (base : option string) (force : bool) :
  silent (ensure_branch E p b base remote force) /\ returns_only b (ensure_branch E p b base remote force).
Proof.
  unfold ensure_branch. cbv zeta. split; [silent_tac|returns_tac].
Qed.

(** A loop whose body prints [line x] when it completes and nothing when
    it raises: it prints the lines of the elements it completed, in order. *)
Lemma for_each_outs {A} (xs : list A) (body : A -> M W unit) (line : A -> string) :
  (forall x s, In x xs -> exists evs, trace (snd (body x s)) = trace s ++ evs /\
     match fst (body x s) with Ok _ => outs evs = [line x] | Raise _ => outs evs = [] end) ->
  forall s, exists evs, trace (snd (for_each xs body s)) = trace s ++ evs /\
    match fst (for_each xs body s) with
    | Ok _ => outs evs = map line xs
    | Raise _ => exists k, k < length xs /\ outs evs = firstn k (map line xs)
    end.
Proof.
  induction xs as [|x rest IH]; intros Hb s.
  - exists []. split; [rewrite app_nil_r|]; reflexivity.
  - pose proof (Hb x s (or_introl eq_refl)) as Hbx.
    cbn [for_each]. unfold bind.
    destruct (body x s) as [[u|e] s1]; destruct Hbx as [e1 [T1 O1]]; cbn [fst snd] in T1, O1 |- *.
    + destruct (IH (fun y s' Hy => Hb y s' (or_intror Hy)) s1) as [e2 [T2 O2]].
      exists (e1 ++ e2). split; [rewrite T2, T1, app_assoc; reflexivity|].
      rewrite outs_app, O1.
      revert O2. destruct (fst (for_each rest body s1)); intros O2.
      * rewrite O2. reflexivity.
      * destruct O2 as [k [Hk O2]]. exists (S k). split; [cbn [length]; lia|].
        rewrite O2. reflexivity.
    + exists e1. split; [exact T1|]. exists 0. split; [cbn [length]; lia|exact O1].
Qed.

Lemma for_each_outs_silent {A B} (xs : list A) (body : A -> M W unit) (line : A -> string) :
  (forall x s, In x xs -> exists c : M W B, body x s = bind c (fun _ => print_out (line x)) s /\ silent c) ->
  forall x s, In x xs -> exists evs, trace (snd (body x s)) = trace s ++ evs /\
     match fst (body x s) with Ok _ => outs evs = [line x] | Raise _ => outs evs = [] end.
Proof.
  intros Hb x s Hx. destruct (Hb x s Hx) as [c [Hbody Hc]]. rewrite Hbody.
  destruct (Hc s) as [e1 [T1 O1]]. unfold bind.
  destruct (c s) as [[a|e] s1]; cbn [snd fst] in T1 |- *.
  - exists (e1 ++ [Out (line x)]). unfold print_out, emit. cbn [trace fst].
    rewrite T1, app_assoc, outs_app, O1. split; reflexivity.
  - exists e1. split; assumption.
Qed.

(** [branch]: what it prints to stdout.  With no dirty target it prints
    [No dirty submodules detected; nothing to branch.].  Otherwise it prints
    [Checked out <name> in <module> (<path>).] for each dirty target in
    order, always with the requested branch name: all of them when it
    completes, and only those of the targets handled before the failing one
    when it raises. *)
Theorem handle_branch_reports (root : string) (targets : list Submodule) (bname : string)
  (base : option string) (remote : string) (force : bool) (s : St W)
  (Hro : status_read_only E (world s) targets) :
  let dirty := filter (status_dirty E (world s)) targets in
  let line := fun m => "Checked out " +++ bname +++ " in " +++ name m +++ " (" +++ path m +++ ")." in
  exists evs,
    trace (snd (handle_branch E root targets bname base remote force s)) = trace s ++ evs
    /\ match fst (handle_branch E root targets bname base remote force s) with
       | Ok _ => outs evs = if nonempty dirty then map line dirty
                            else ["No dirty submodules detected; nothing to branch."]
       | Raise _ => exists k, k < length dirty /\ outs evs = firstn k (map line dirty)
       end.
Proof.
  intros dirty line.
  destruct (changed_loop_full E false targets [] s Hro) as [ev1 [Hc [X1 O1]]].
  cbn [app] in Hc. fold dirty in Hc.
  unfold handle_branch, changed_submodules. rewrite (bind_step _ _ _ _ _ Hc). cbv beta.
  destruct (nonempty dirty) eqn:Hn; cbn [negb].
  - assert (Hbody : forall x s', In x dirty -> exists evs, trace (snd (
        (fun module => branch <- ensure_branch E (path module) bname base remote force ;;
           print_out ("Checked out " +++ branch +++ " in " +++ name module +++ " (" +++ path module +++ ")."))
        x s')) = trace s' ++ evs /\
        match fst ((fun module => branch <- ensure_branch E (path module) bname base remote force ;;
           print_out ("Checked out " +++ branch +++ " in " +++ name module +++ " (" +++ path module +++ ")."))
        x s') with Ok _ => outs evs = [line x] | Raise _ => outs evs = [] end).
    { apply (for_each_outs_silent (B:=string)). intros x s' _.
      exists (ensure_branch E (path x) bname base remote force). split.
      - unfold bind.
        destruct (ensure_branch_silent (path x) bname remote base force) as [_ Hret].
        specialize (Hret s').
        destruct (ensure_branch E (path x) bname base remote force s') as [[a|e] s1];
          [rewrite (Hret a eq_refl)|]; reflexivity.
      - apply ensure_branch_silent. }
    destruct (for_each_outs dirty _ line Hbody
                (mk_st (world s) (trace s ++ ev1) (DEBUG s))) as [e2 [T2 O2]].
    exists (ev1 ++ e2). cbn [trace] in T2. rewrite T2, app_assoc.
    split; [reflexivity|].
    rewrite outs_app, O1. exact O2.
  - exists (ev1 ++ [Out "No dirty submodules detected; nothing to branch."]).
    unfold print_out, emit. cbn [trace fst snd]. rewrite app_assoc.
    split; [reflexivity|]. rewrite outs_app, O1. reflexivity.
Qed.

Lemma silent_for_each {A} (xs : list A) (body : A -> M W unit) :
  (forall x, silent (body x)) -> silent (for_each xs body).
Proof.
  intros Hb. induction xs as [|x rest IH]; cbn [for_each]; [apply silent_ret|].
  apply silent_bind; [apply Hb|intros _; exact IH].
Qed.

Lemma silent_update_parent (root : string) (subs : list Submodule) : silent (update_parent E root subs).
Proof.
  unfold update_parent. apply silent_for_each. intros m. unfold relative_path. silent_tac.
Qed.

(** [update-parent]: what it prints to stdout.  With no dirty target it
    prints [No dirty submodules detected; nothing to stage in the parent.].
    Otherwise, the dirty targets lying under [root], it prints nothing
    unless every [git add] succeeded, and then prints
    [Staged updated hash for <module> (<relative path>).] for each of them
    in order. *)
Theorem handle_update_parent_reports (root : string) (targets : list Submodule) (s : St W)
  (Hro : status_read_only E (world s) targets)
  (Hrel : Forall (fun m => relative_to (path m) root <> None)
            (filter (status_dirty E (world s)) targets)) :
  let dirty := filter (status_dirty E (world s)) targets in
  let line := fun m => "Staged updated hash for " +++ name m +++ " ("
                       +++ match relative_to (path m) root with Some rel => rel | None => EmptyString end
                       +++ ")." in
  exists evs,
    trace (snd (handle_update_parent E root targets s)) = trace s ++ evs
    /\ match fst (handle_update_parent E root targets s) with
       | Ok _ => outs evs = if nonempty dirty then map line dirty
                            else ["No dirty submodules detected; nothing to stage in the parent."]
       | Raise _ => outs evs = []
       end.
Proof.
  intros dirty line.
  destruct (changed_loop_full E false targets [] s Hro) as [ev1 [Hc [X1 O1]]].
  cbn [app] in Hc. fold dirty in Hc.
  unfold handle_update_parent, changed_submodules. rewrite (bind_step _ _ _ _ _ Hc). cbv beta.
  destruct (nonempty dirty) eqn:Hn; cbn [negb].
  - set (s1 := mk_st (world s) (trace s ++ ev1) (DEBUG s)).
    destruct (silent_update_parent root dirty s1) as [e2 [T2 O2]].
    destruct (update_parent E root dirty s1) as [[u|e] s2] eqn:Hup; cbn [snd] in T2.
    + destruct u. rewrite (bind_step _ _ _ _ _ Hup). cbv beta.
      rewrite (for_each_frame _ _ (fun m => [Out (line m)]) (world s2) (DEBUG s2));
        [|intros m s' Hm Hw Hd; unfold relative_path;
          destruct (relative_to (path m) root) as [rel|] eqn:Hr;
          [unfold line; rewrite Hr, bind_ret_at; unfold print_out, emit; rewrite Hw, Hd; reflexivity
          |exact (False_ind _ (proj1 (Forall_forall _ _) Hrel m Hm Hr))]
        |reflexivity|reflexivity].
      exists (ev1 ++ e2 ++ concat (map (fun m => [Out (line m)]) dirty)).
      cbn [trace fst snd]. rewrite T2. cbn [s1 trace]. rewrite <- !app_assoc.
      split; [reflexivity|].
      rewrite !outs_app, O1, O2, outs_concat. cbn [app].
      rewrite <- (concat_map_single line). reflexivity.
    + rewrite (bind_raise_step _ _ _ _ _ Hup).
      exists (ev1 ++ e2). cbn [trace fst snd]. rewrite T2. cbn [s1 trace].
      rewrite <- app_assoc. split; [reflexivity|].
      rewrite outs_app, O1, O2. reflexivity.
  - exists (ev1 ++ [Out "No dirty submodules detected; nothing to stage in the parent."]).
    unfold print_out, emit. cbn [trace fst snd]. rewrite app_assoc.
    split; [reflexivity|]. rewrite outs_app, O1. reflexivity.
Qed.

End Reports.

Section Quiet.
Context {W : Type} (E : Env W).

(** Run with [DEBUG] off, [c] keeps it off and emits no debug line. *)
Definition nodbg {A} (c : M W A) : Prop :=
  forall s, DEBUG s = false ->
    DEBUG (snd (c s)) = false
    /\ exists evs, trace (snd (c s)) = trace s ++ evs /\ Forall (fun ev => debug_line ev = false) evs.

Lemma nodbg_emit (ev : event) : debug_line ev = false -> nodbg (emit ev).
Proof. intros H s Hd. split; [exact Hd|]. exists [ev]. split; [reflexivity|constructor; [exact H|constructor]]. Qed.

Lemma nodbg_ret {A} (a : A) : nodbg (ret a).
Proof. intros s Hd. split; [exact Hd|]. exists []. split; [rewrite app_nil_r; reflexivity|constructor]. Qed.

Lemma nodbg_raise {A} (e : exn) : nodbg (A:=A) (raise e).
Proof. intros s Hd. split; [exact Hd|]. exists []. split; [rewrite app_nil_r; reflexivity|constructor]. Qed.

Lemma nodbg_read_world {A} (f : W -> A) : nodbg (read_world f).
Proof. intros s Hd. split; [exact Hd|]. exists []. split; [rewrite app_nil_r; reflexivity|constructor]. Qed.

Lemma nodbg_print_out (l : string) : nodbg (print_out l).
Proof. apply nodbg_emit. reflexivity. Qed.

Lemma nodbg_print_err (l : string) : String.prefix "[submodule-workflow] " l = false -> nodbg (print_err l).
Proof. intros H. apply nodbg_emit. exact H. Qed.

Lemma nodbg_debug (msg : string) : nodbg (debug msg).
Proof.
  intros s Hd. rewrite debug_exact, Hd. split; [reflexivity|].
  exists []. split; [reflexivity|constructor].
Qed.

Lemma nodbg_exec (cmd : list string) : nodbg (exec E cmd).
Proof.
  intros s Hd. unfold exec. destruct (subprocess_run E cmd (world s)) as [r w'].
  split; [exact Hd|]. exists [Exec cmd r]. split; [reflexivity|constructor; [reflexivity|constructor]].
Qed.

Lemma nodbg_exec_inherit (cmd : list string) : nodbg (exec_inherit E cmd).
Proof.
  intros s Hd. unfold exec_inherit. destruct (subprocess_run E cmd (world s)) as [r w'].
  split; [exact Hd|]. exists [Exec cmd r; ChildOut (stdout r); ChildErr (stderr r)].
  split; [reflexivity|repeat constructor].
Qed.

Lemma nodbg_bind {A B} (c : M W A) (k : A -> M W B) :
  nodbg c -> (forall a, nodbg (k a)) -> nodbg (bind c k).
Proof.
  intros Hc Hk s Hd. destruct (Hc s Hd) as [Hd1 [e1 [T1 F1]]]. unfold bind.
  destruct (c s) as [[a|e] s1]; cbn [snd] in Hd1, T1 |- *.
  - destruct (Hk a s1 Hd1) as [Hd2 [e2 [T2 F2]]]. split; [exact Hd2|].
    exists (e1 ++ e2). rewrite T2, T1, app_assoc. split; [reflexivity|apply Forall_app; split; assumption].
  - split; [exact Hd1|]. exists e1. split; assumption.
Qed.

Lemma nodbg_run_git (p : string) (args : list string) (check : bool) : nodbg (run_git E p args check).
Proof.
  unfold run_git. apply nodbg_bind; [apply nodbg_debug|intros _].
  apply nodbg_bind; [apply nodbg_exec|intros r].
  destruct (_ && _); [apply nodbg_raise|apply nodbg_ret].
Qed.

Lemma nodbg_for_each {A} (xs : list A) (body : A -> M W unit) :
  (forall x, nodbg (body x)) -> nodbg (for_each xs body).
Proof.
  intros Hb. induction xs as [|x rest IH]; cbn [for_each]; [apply nodbg_ret|].
  apply nodbg_bind; [apply Hb|intros _; exact IH].
Qed.

Lemma nodbg_catch {A} (body : M W A) (handler : string -> M W A) :
  nodbg body -> (forall msg, nodbg (handler msg)) -> nodbg (catch_workflow body handler).
Proof.
  intros Hb Hh s Hd. destruct (Hb s Hd) as [Hd1 [e1 [T1 F1]]]. unfold catch_workflow.
  destruct (body s) as [[a|[msg|k m]] s1]; cbn [snd] in Hd1, T1 |- *;
    try (split; [exact Hd1|exists e1; split; assumption]).
  destruct (Hh msg s1 Hd1) as [Hd2 [e2 [T2 F2]]]. split; [exact Hd2|].
  exists (e1 ++ e2). rewrite T2, T1, app_assoc. split; [reflexivity|apply Forall_app; split; assumption].
Qed.

Ltac nodbg_tac :=
  repeat first
    [ apply nodbg_ret | apply nodbg_raise | apply nodbg_debug | apply nodbg_exec
    | apply nodbg_exec_inherit
    | apply nodbg_read_world | apply nodbg_print_out
    | apply nodbg_print_err; reflexivity
    | apply nodbg_run_git
    | apply nodbg_for_each; intros ?; cbv beta
    | progress (unfold git_status_lines, get_current_branch, relative_path, push_branch,
                ensure_branch, create_merge_request, push_one, mr_one, update_parent)
    | apply nodbg_bind; [|intros ?]
    | match goal with
      | |- nodbg (if ?b then _ else _) => destruct b
      | |- nodbg (match ?x with _ => _ end) => destruct x
      | |- nodbg (let _ := _ in _) => cbv zeta
      end ].

Lemma nodbg_changed_loop (subs : list Submodule) (ic : bool) :
  forall dirty, nodbg (changed_loop E subs ic dirty).
Proof.
  induction subs as [|m rest IH]; intros dirty; cbn [changed_loop]; [apply nodbg_ret|].
  apply nodbg_bind; [nodbg_tac|intros lines].
  apply nodbg_bind; [nodbg_tac|intros _]. apply IH.
Qed.

Lemma nodbg_dispatch (root : string) (targets : list Submodule) (args : Namespace) :
  nodbg (dispatch E root targets args).
Proof.
  unfold dispatch, handle_status, handle_branch, handle_push, handle_mr, handle_update_parent,
    changed_submodules.
  destruct (command args); (apply nodbg_bind; [|intros ?]).
  all: try apply nodbg_changed_loop.
  all: try (destruct (include_clean args); [apply nodbg_ret|apply nodbg_changed_loop]).
  all: nodbg_tac.
Qed.

(** Without [--verbose], a run emits no debug line: no stderr line of any
    subcommand starts with [[submodule-workflow] ], whatever the state of
    [DEBUG] before [main]. *)
Theorem main_quiet_without_verbose (args : Namespace) (s : St W) (Hv : verbose args = false) :
  exists evs, trace (snd (main E args s)) = trace s ++ evs
    /\ Forall (fun ev => debug_line ev = false) evs.
Proof.
  unfold main. unfold bind at 1, set_debug. cbv beta iota.
  set (s0 := mk_st (world s) (trace s) (verbose args)).
  assert (H : nodbg (catch_workflow (main_body E args)
                       (fun msg => print_err ("Error: " +++ msg) ;; ret 1%Z))).
  { apply nodbg_catch; [|intros msg; nodbg_tac].
    unfold main_body, ensure_repo, load_submodules, resolve_targets.
    apply nodbg_bind; [nodbg_tac|intros root].
    apply nodbg_bind; [nodbg_tac|intros subs].
    destruct (negb (nonempty subs)); [nodbg_tac|].
    apply nodbg_bind; [nodbg_tac|intros targets].
    apply nodbg_bind; [apply nodbg_dispatch|intros _]. apply nodbg_ret. }
  destruct (H s0 Hv) as [_ [evs [T F]]]. exists evs. split; [exact T|exact F].
Qed.

End Quiet.

(** * Witnesses and counterexamples on concrete inputs *)

Lemma changed_submodules_exact_witness :
  status_read_only Toy.env Fixtures.w0 Fixtures.subs0
  /\ fst (changed_submodules Toy.env Fixtures.subs0 false (Toy.st Fixtures.w0)) = Ok [Fixtures.lib].
Proof.
  assert (Hro : status_read_only Toy.env Fixtures.w0 Fixtures.subs0)
    by (repeat constructor).
  split; [exact Hro|].
  destruct (changed_submodules_exact Toy.env Fixtures.subs0 false (Toy.st Fixtures.w0) Hro)
    as (_ & _ & _ & H & _).
  rewrite H. vm_compute. reflexivity.
Defined.

Lemma ensure_branch_case_order_witness :
  queries_read_only Toy.env Fixtures.w0 "/r/vendor/lib" "feat"
  /\ fst (ensure_branch Toy.env "/r/vendor/lib" "feat" (Some "main") "origin" false
            (Toy.st Fixtures.w0)) = Ok "feat".
Proof.
  assert (Hq : queries_read_only Toy.env Fixtures.w0 "/r/vendor/lib" "feat")
    by (split; [reflexivity | split; reflexivity]).
  split; [exact Hq|].
  destruct (ensure_branch_case_order Toy.env "/r/vendor/lib" "feat" "origin" (Some "main") false
              (Toy.st Fixtures.w0) Hq) as [evs [_ [_ [_ [_ H4]]]]].
  vm_compute. reflexivity.
Defined.

Lemma main_no_submodules_witness :
  main Toy.env (Fixtures.args_of None CmdStatus) (Toy.st Fixtures.w_empty) =
  (Ok 0%Z, mk_st Fixtures.w_empty [Out "No submodules registered in .gitmodules."] false).
Proof.
  exact (main_no_submodules Toy.env (Fixtures.args_of None CmdStatus) (Toy.st Fixtures.w_empty) []
           eq_refl eq_refl eq_refl).
Defined.

(** C4 fails on an empty registry: the unknown name is never checked and
    the run succeeds. *)
Lemma unknown_target_empty_registry_succeeds :
  main Toy.env (Fixtures.args_of (Some ["nope"]) CmdUpdateParent) (Toy.st Fixtures.w_empty) =
  (Ok 0%Z, mk_st Fixtures.w_empty [Out "No submodules registered in .gitmodules."] false).
Proof. vm_compute. reflexivity. Qed.

Lemma main_unknown_targets_witness :
  main Toy.env (Fixtures.args_of (Some ["lib"; "nope"]) (CmdPush "origin" true)) (Toy.st Fixtures.w0) =
  (Ok 1%Z, mk_st Fixtures.w0 [ErrOut "Error: Unknown submodule(s): nope"] false).
Proof.
  refine (main_unknown_targets Toy.env (Fixtures.args_of (Some ["lib"; "nope"]) (CmdPush "origin" true)) (Toy.st Fixtures.w0) (Toy.manifest Fixtures.w0) ["lib"; "nope"]
            eq_refl eq_refl _ eq_refl _).
  - vm_compute. discriminate.
  - exists "nope". split; [right; left; reflexivity | reflexivity].
Defined.

(** C8 fails when the body raises an exception other than [WorkflowError]:
    an absolute submodule path makes [relative_to] raise [ValueError] in
    [update-parent], which [main] does not catch. *)
Lemma main_value_error_propagates :
  fst (main Toy.env (Fixtures.args_of None CmdUpdateParent) (Toy.st Fixtures.w_abs)) =
  Raise (OtherError "ValueError" "/abs/lib").
Proof. vm_compute. reflexivity. Qed.

(** C3 fails for the unchecked commands: the [fetch] and [pull] of the base
    fail (unknown remote) and the call still succeeds. *)
Lemma ensure_branch_ignores_fetch_failure :
  fst (ensure_branch Toy.env "/r/vendor/docs" "feat" (Some "main") "upstream" false
         (Toy.st Fixtures.w0)) = Ok "feat"
  /\ map fst (filter (fun cr => negb (returncode (snd cr) =? 0)%Z)
       (exec_results (trace (snd (ensure_branch Toy.env "/r/vendor/docs" "feat" (Some "main")
                                    "upstream" false (Toy.st Fixtures.w0))))))
     = [verify_cmd "/r/vendor/docs" "feat"; fetch_cmd "/r/vendor/docs" "upstream" "main";
        pull_cmd "/r/vendor/docs" "upstream" "main"].
Proof. vm_compute. split; reflexivity. Qed.



Lemma dispatch_dirty_only_witness :
  status_read_only Toy.env Fixtures.w0 Fixtures.subs0
  /\ filter (status_dirty Toy.env Fixtures.w0) Fixtures.subs0 = [Fixtures.lib]
  /\ exists scan ops segs,
    trace (snd (dispatch Toy.env "/r" Fixtures.subs0 (Fixtures.args_of None CmdUpdateParent)
                  (Toy.st Fixtures.w0))) = [] ++ scan ++ ops
    /\ execs scan = map (fun m => status_cmd (path m)) Fixtures.subs0
    /\ execs ops = execs (concat (map snd segs))
    /\ Forall (fun sg => In (fst sg) (filter (status_dirty Toy.env Fixtures.w0) Fixtures.subs0)
                         /\ Forall (concerns "/r" (fst sg)) (execs (snd sg))) segs.
Proof.
  split; [repeat constructor|]. split; [vm_compute; reflexivity|].
  apply (dispatch_dirty_only Toy.env "/r" Fixtures.subs0 (Fixtures.args_of None CmdUpdateParent)
           (Toy.st Fixtures.w0)).
  - repeat constructor.
  - discriminate.
Defined.

Lemma push_detached_aborts_witness :
  let args := Fixtures.args_of None (CmdPush "origin" false) in
  let s := Toy.st Fixtures.w_det in
  let s1 := snd (for_each [Fixtures.sub_a] (push_one Toy.env "origin" false)
                   (snd (changed_submodules Toy.env [Fixtures.sub_a; Fixtures.sub_b; Fixtures.sub_c] false
                           (mk_st (world s) (trace s) (verbose args))))) in
  exists evs,
    main Toy.env args s =
    (Ok 1%Z, mk_st (snd (subprocess_run Toy.env (abbrev_cmd (path Fixtures.sub_b)) (world s1)))
       (trace s1 ++ evs ++ [ErrOut ("Error: Submodule " +++ name Fixtures.sub_b
          +++ " is in a detached HEAD state; cannot push without a branch.")])
       (DEBUG s1))
    /\ execs evs = [abbrev_cmd (path Fixtures.sub_b)].
Proof.
  intros args s s1.
  apply (push_detached_aborts Toy.env args s (Toy.manifest Fixtures.w_det)
           [Fixtures.sub_a; Fixtures.sub_b; Fixtures.sub_c] [Fixtures.sub_a] [Fixtures.sub_c]
           Fixtures.sub_b "origin" false s1).
  - vm_compute. reflexivity.
  - vm_compute. reflexivity.
  - vm_compute. discriminate.
  - vm_compute. reflexivity.
  - reflexivity.
  - repeat constructor.
  - vm_compute. reflexivity.
  - unfold s1. vm_compute. reflexivity.
  - vm_compute. reflexivity.
Defined.

(** C10 fails when the requested name is a tag: the first call checks the
    tag out, which detaches HEAD, and the second call finds no current
    branch and checks it out again. *)
Lemma ensure_branch_tag_not_idempotent :
  let s1 := snd (ensure_branch Toy.env "/r/vendor/docs" "v2" None "origin" false
                   (Toy.st Fixtures.w_tag)) in
  fst (ensure_branch Toy.env "/r/vendor/docs" "v2" None "origin" false (Toy.st Fixtures.w_tag))
    = Ok "v2"
  /\ fst (ensure_branch Toy.env "/r/vendor/docs" "v2" None "origin" false s1) = Ok "v2"
  /\ execs (trace (snd (ensure_branch Toy.env "/r/vendor/docs" "v2" None "origin" false s1)))
     = [abbrev_cmd "/r/vendor/docs"; verify_cmd "/r/vendor/docs" "v2"; checkout_cmd "/r/vendor/docs" "v2";
        abbrev_cmd "/r/vendor/docs"; verify_cmd "/r/vendor/docs" "v2"; checkout_cmd "/r/vendor/docs" "v2"].
Proof. vm_compute. repeat split. Qed.

Lemma ensure_branch_idempotent_witness :
  let s := Toy.st Fixtures.w0 in
  let s1 := snd (ensure_branch Toy.env "/r/vendor/lib" "feat" None "origin" false s) in
  ensure_branch Toy.env "/r/vendor/lib" "feat" None "origin" false s1 =
  (Ok "feat", mk_st (snd (subprocess_run Toy.env (abbrev_cmd "/r/vendor/lib") (world s1)))
           (trace s1 ++ dbg_evs (DEBUG s1) ("Executing: " +++ join " " (abbrev_cmd "/r/vendor/lib"))
              ++ [Exec (abbrev_cmd "/r/vendor/lib") (fst (subprocess_run Toy.env (abbrev_cmd "/r/vendor/lib") (world s1)))])
           (DEBUG s1)).
Proof.
  intros s s1.
  apply (ensure_branch_idempotent Toy.env "/r/vendor/lib" "feat" "origin" None false s s1).
  - vm_compute. repeat split.
  - vm_compute. discriminate.
  - apply ToyFacts.create_feat_lands.
  - unfold s1. vm_compute. reflexivity.
Defined.

Lemma resolve_targets_known_witness :
  exists ts, resolve_targets "/r" Fixtures.subs0 (Some ["docs"; "lib"]) (Toy.st Fixtures.w0)
             = (Ok ts, Toy.st Fixtures.w0)
    /\ map name ts = ["docs"; "lib"] /\ Forall (fun t => In t Fixtures.subs0) ts.
Proof.
  apply (resolve_targets_known "/r" Fixtures.subs0 ["docs"; "lib"] (Toy.st Fixtures.w0)).
  - discriminate.
  - repeat constructor; vm_compute; discriminate.
Defined.

Lemma relative_to_path_join_witness :
  relative_to (path_join "/r/" "./vendor//lib/") "/r/" = Some "vendor/lib".
Proof. exact (relative_to_path_join "/r/" "./vendor//lib/" eq_refl). Defined.

Lemma section_name_quoted_witness :
  strip_dquote (split1_last ("submodule " +++ String dquote ("lib" +++ String dquote EmptyString)))
  = "lib".
Proof.
  apply section_name_quoted; intros c H; vm_compute in H; injection H as <-; discriminate.
Defined.

Lemma load_submodules_entries_witness :
  exists subs, load_submodules Toy.env "/r" (Toy.st Fixtures.w0) = (Ok subs, Toy.st Fixtures.w0)
    /\ map name subs = map (fun e => strip_dquote (split1_last (fst e)))
                           (registered_entries (Toy.manifest Fixtures.w0))
    /\ map path subs = map (fun e => path_join "/r" (snd e)) (registered_entries (Toy.manifest Fixtures.w0))
    /\ (Forall (fun e => is_absolute (snd e) = false) (registered_entries (Toy.manifest Fixtures.w0)) ->
        map (fun m => relative_to (path m) "/r") subs
        = map (fun e => Some (path_str (snd e))) (registered_entries (Toy.manifest Fixtures.w0))).
Proof.
  apply (load_submodules_entries Toy.env "/r" (Toy.st Fixtures.w0) (Toy.manifest Fixtures.w0)).
  vm_compute. reflexivity.
Defined.

Lemma handle_status_output_witness :
  let s := Toy.st Fixtures.w0 in
  let shown := filter (status_dirty Toy.env (world s)) Fixtures.subs0 in
  exists evs,
    handle_status Toy.env "/r" Fixtures.subs0 false s = (Ok tt, mk_st (world s) (trace s ++ evs) (DEBUG s))
    /\ execs evs = map (fun m => status_cmd (path m)) Fixtures.subs0
                   ++ map (fun m => status_cmd (path m)) shown
    /\ outs evs = (if nonempty shown
                   then concat (map (fun m => status_report m
                          (status_lines_of (fst (subprocess_run Toy.env (status_cmd (path m)) (world s))))) shown)
                   else ["No dirty submodules detected."]).
Proof.
  intros s shown.
  apply (handle_status_output Toy.env "/r" Fixtures.subs0 false s).
  repeat constructor.
Defined.

Lemma dispatch_nothing_dirty_witness :
  exists evs,
    dispatch Toy.env "/r" [Fixtures.docs] (Fixtures.args_of None CmdUpdateParent) (Toy.st Fixtures.w0)
    = (Ok tt, mk_st Fixtures.w0 ([] ++ evs) false)
    /\ execs evs = [status_cmd "/r/vendor/docs"]
    /\ outs evs = [no_dirty_msg CmdUpdateParent].
Proof.
  apply (dispatch_nothing_dirty Toy.env "/r" [Fixtures.docs] (Fixtures.args_of None CmdUpdateParent)
           (Toy.st Fixtures.w0)).
  - repeat constructor.
  - discriminate.
  - vm_compute. reflexivity.
Defined.

Lemma main_status_read_only_witness :
  runs_only (fun c => exists p, c = status_cmd p) (main Toy.env (Fixtures.args_of None CmdStatus)).
Proof. exact (main_status_read_only Toy.env (Fixtures.args_of None CmdStatus) eq_refl). Defined.

Lemma main_missing_gitmodules_witness :
  main Toy.env (Fixtures.args_of None CmdStatus) (Toy.st Fixtures.w_nogm) =
  (Ok 1%Z, mk_st Fixtures.w_nogm
     [ErrOut "Error: Expected to find a .gitmodules file in /r; is this the ape repository?"] false).
Proof.
  exact (main_missing_gitmodules Toy.env (Fixtures.args_of None CmdStatus) (Toy.st Fixtures.w_nogm)
           eq_refl).
Defined.

Lemma main_bad_gitmodules_witness :
  main Fixtures.env_bad (Fixtures.args_of None CmdStatus) (Toy.st Fixtures.w0) =
  (Raise (OtherError "configparser.Error" "/r/.gitmodules"), mk_st Fixtures.w0 [] false).
Proof.
  exact (main_bad_gitmodules Fixtures.env_bad (Fixtures.args_of None CmdStatus) (Toy.st Fixtures.w0)
           eq_refl eq_refl).
Defined.

Lemma update_parent_adds_witness :
  exists evs,
    trace (snd (update_parent Toy.env "/r" Fixtures.subs0 (Toy.st Fixtures.w0))) = [] ++ evs
    /\ match fst (update_parent Toy.env "/r" Fixtures.subs0 (Toy.st Fixtures.w0)) with
       | Ok _ => map fst (exec_results evs) = add_cmds "/r" Fixtures.subs0
                 /\ Forall (fun cr => returncode (snd cr) = 0%Z) (exec_results evs)
       | Raise e => exists pre c r,
           exec_results evs = pre ++ [(c, r)]
           /\ Forall (fun cr => returncode (snd cr) = 0%Z) pre
           /\ returncode r <> 0%Z
           /\ e = WorkflowError (diagnostic r)
           /\ map fst pre ++ [c] = firstn (S (length pre)) (add_cmds "/r" Fixtures.subs0)
       end.
Proof.
  apply (update_parent_adds Toy.env "/r" Fixtures.subs0 (Toy.st Fixtures.w0)).
  repeat constructor; vm_compute; discriminate.
Defined.

Lemma create_merge_request_exit_witness :
  let s := Toy.st Fixtures.w_mr_fail in
  let w1 := snd (subprocess_run Toy.env (geturl_cmd "/r/vendor/lib") (world s)) in
  let cmd := mr_command "glab" "main" "main" None false in
  let rc := returncode (fst (subprocess_run Toy.env cmd w1)) in
  exists evs,
    create_merge_request Toy.env "/r/vendor/lib" "main" "main" None false s =
    (if (rc =? 0)%Z then Ok tt
     else Raise (WorkflowError ("Merge request command failed with exit code "
                                +++ z_to_string rc +++ ".")),
     mk_st (snd (subprocess_run Toy.env cmd w1)) (trace s ++ evs) (DEBUG s))
    /\ execs evs = [geturl_cmd "/r/vendor/lib"; cmd]
    /\ outs evs = []
    /\ child_outs evs = [stdout (fst (subprocess_run Toy.env cmd w1))]
    /\ child_errs evs = [stderr (fst (subprocess_run Toy.env cmd w1))].
Proof.
  intros s.
  apply (create_merge_request_exit Toy.env "/r/vendor/lib" "main" "main" None false s "glab").
  - vm_compute. reflexivity.
  - vm_compute. reflexivity.
Defined.

Lemma push_one_pushes_witness :
  let s := Toy.st Fixtures.w0 in
  let w1 := snd (subprocess_run Toy.env (abbrev_cmd "/r/vendor/lib") (world s)) in
  let pc := git_cmd "/r/vendor/lib" ["push"; "-u"; "origin"; "main"] in
  let r := fst (subprocess_run Toy.env pc w1) in
  exists evs,
    push_one Toy.env "origin" true Fixtures.lib s =
    (if (returncode r =? 0)%Z then Ok tt else Raise (WorkflowError (diagnostic r)),
     mk_st (snd (subprocess_run Toy.env pc w1)) (trace s ++ evs) (DEBUG s))
    /\ execs evs = [abbrev_cmd "/r/vendor/lib"; pc]
    /\ outs evs = (if (returncode r =? 0)%Z
                   then ["Pushed lib (/r/vendor/lib) to origin/main."]
                   else []).
Proof.
  intros s.
  apply (push_one_pushes Toy.env "origin" true Fixtures.lib s "main").
  - vm_compute. reflexivity.
  - reflexivity.
Defined.

Lemma handle_mr_no_branch_witness :
  let s := Toy.st Fixtures.w_det in
  let targets := [Fixtures.sub_a; Fixtures.sub_b; Fixtures.sub_c] in
  let s1 := snd (for_each [Fixtures.sub_a] (mr_one Toy.env "main" None false)
                   (snd (changed_submodules Toy.env targets false s))) in
  exists evs,
    handle_mr Toy.env "/r" targets "main" None false s =
    (Raise (WorkflowError "Submodule b does not have an active branch; create one before opening an MR."),
     mk_st (snd (subprocess_run Toy.env (abbrev_cmd "/r/vendor/b") (world s1))) (trace s1 ++ evs) (DEBUG s1))
    /\ execs evs = [abbrev_cmd "/r/vendor/b"].
Proof.
  intros s targets s1.
  apply (handle_mr_no_branch Toy.env "/r" targets [Fixtures.sub_a] [Fixtures.sub_c] Fixtures.sub_b
           "main" None false s s1).
  - repeat constructor.
  - vm_compute. reflexivity.
  - unfold s1. vm_compute. reflexivity.
  - vm_compute. reflexivity.
Defined.

Lemma handle_branch_reports_witness :
  let s := Toy.st Fixtures.w0 in
  let dirty := filter (status_dirty Toy.env (world s)) Fixtures.subs0 in
  let line := fun m => "Checked out feat in " +++ name m +++ " (" +++ path m +++ ")." in
  exists evs,
    trace (snd (handle_branch Toy.env "/r" Fixtures.subs0 "feat" None "origin" false s)) = trace s ++ evs
    /\ match fst (handle_branch Toy.env "/r" Fixtures.subs0 "feat" None "origin" false s) with
       | Ok _ => outs evs = if nonempty dirty then map line dirty
                            else ["No dirty submodules detected; nothing to branch."]
       | Raise _ => exists k, k < length dirty /\ outs evs = firstn k (map line dirty)
       end.
Proof.
  intros s.
  apply (handle_branch_reports Toy.env "/r" Fixtures.subs0 "feat" None "origin" false s).
  repeat constructor.
Defined.

Lemma handle_update_parent_reports_witness :
  let s := Toy.st Fixtures.w0 in
  let dirty := filter (status_dirty Toy.env (world s)) Fixtures.subs0 in
  let line := fun m => "Staged updated hash for " +++ name m +++ " ("
                       +++ match relative_to (path m) "/r" with Some rel => rel | None => EmptyString end
                       +++ ")." in
  exists evs,
    trace (snd (handle_update_parent Toy.env "/r" Fixtures.subs0 s)) = trace s ++ evs
    /\ match fst (handle_update_parent Toy.env "/r" Fixtures.subs0 s) with
       | Ok _ => outs evs = if nonempty dirty then map line dirty
                            else ["No dirty submodules detected; nothing to stage in the parent."]
       | Raise _ => outs evs = []
       end.
Proof.
  intros s.
  apply (handle_update_parent_reports Toy.env "/r" Fixtures.subs0 s).
  - repeat constructor.
  - vm_compute. repeat constructor. discriminate.
Defined.

Lemma main_quiet_without_verbose_witness :
  let s := mk_st Fixtures.w0 [] true in
  exists evs,
    trace (snd (main Toy.env (Fixtures.args_of None (CmdBranch "feat" None "origin" false)) s)) = trace s ++ evs
    /\ Forall (fun ev => debug_line ev = false) evs.
Proof.
  intros s.
  exact (main_quiet_without_verbose Toy.env (Fixtures.args_of None (CmdBranch "feat" None "origin" false)) s
           eq_refl).
Defined.
